(** * Bayou: the revision-control engine

    A shallow embedding of the parts of the Bayou sources that carry the
    operational-transform protocol: the delta base class, document snapshots,
    the part controller with its optimistic retry loop, the author session
    facade and the file base class.

    JavaScript values are modelled by a small universe of dynamically typed
    values, thrown errors by an explicit outcome type, and the methods that
    talk to a subclass or to the store by state passing over a world that
    also records the calls that were made. *)

From Stdlib Require Import ZArith List String Ascii Bool Lia Sorted.
From Stdlib Require Import DecimalString DecimalZ.
Import ListNotations.
Local Open Scope string_scope.
Local Open Scope list_scope.
Local Open Scope Z_scope.

(** ** Errors *)

(** The errors the modelled code throws. [bad_value], [bad_use], [wtf],
    [aborted] and [revision_not_available] are the constructors of the
    [Errors] utility classes ([bad_value] is spelled [badValue] and [bad_use]
    is spelled [badUse] in the later sources); [plain_error] is
    [new Error(msg)], [type_error] the engine's own [TypeError], and
    [subclass_error] stands for anything an [_impl_] method or the store
    throws by itself. *)
Inductive Error : Type :=
| bad_value (expectation : string)
| bad_use (msg : string)
| wtf (msg : string)
| aborted (msg : string)
| revision_not_available (revNum : Z)
| plain_error (msg : string)
| type_error (msg : string)
| subclass_error (name : string).

(** The taxonomy of the specification (section 7). *)
Inductive Category : Type :=
| InvalidArgument
| RevisionNotAvailable
| AbortedError
| InternalConsistency
| External.

Definition category (e : Error) : Category :=
  match e with
  | bad_value _ | bad_use _ => InvalidArgument
  | revision_not_available _ => RevisionNotAvailable
  | aborted _ => AbortedError
  | wtf _ => InternalConsistency
  | plain_error _ | type_error _ | subclass_error _ => External
  end.

(** The result of running a piece of code: it returns or it throws. *)
Inductive Outcome (A : Type) : Type :=
| Returned (a : A)
| Threw (e : Error).
Arguments Returned {A} a.
Arguments Threw {A} e.

(** ** A monad interface shared by pure-but-throwing and stateful code *)

Class Monad (M : Type -> Type) : Type := {
  ret : forall {A}, A -> M A;
  bind : forall {A B}, M A -> (A -> M B) -> M B;
  throw : forall {A}, Error -> M A
}.

Declare Scope js_scope.
Delimit Scope js_scope with js.
Notation "x <- c1 ;; c2" := (bind c1 (fun x => c2))
  (at level 100, c1 at next level, right associativity) : js_scope.
Notation "c1 ;;; c2" := (bind c1 (fun _ => c2))
  (at level 100, right associativity) : js_scope.
Local Open Scope js_scope.

#[export] Instance Monad_Outcome : Monad Outcome := {
  ret := fun A a => Returned a;
  bind := fun A B c k => match c with Returned a => k a | Threw e => Threw e end;
  throw := fun A e => Threw e
}.

(** ** Values *)

(** Classes are compared by identity of the constructor function; a name
    stands for it. *)
Definition ClassId : Type := string.

(** An operation: a name and its arguments. *)
Record Op : Type := mkOp { opName : string; opArgs : list string }.

(** A delta: an instance of a concrete subclass of [BaseDelta] with its frozen
    array of operations. *)
Record Delta : Type := mkDelta { deltaClass : ClassId; ops : list Op }.

(** A change: revision number, delta, timestamp and author. *)
Record Change : Type := mkChange {
  changeClass : ClassId;
  revNum : Z;
  delta : Delta;
  timestamp : option Z;
  authorId : option string
}.

(** A snapshot: revision number and contents. *)
Record Snapshot : Type := mkSnapshot {
  snapshotClass : ClassId;
  snapRevNum : Z;
  contents : Delta
}.

(** What a JavaScript expression can evaluate to, as far as the modelled code
    can tell values apart. [VInt] is a number with an integer value, [VNonInt]
    any other number. *)
Inductive Value : Type :=
| VUndefined
| VNull
| VBool (b : bool)
| VInt (n : Z)
| VNonInt
| VStr (s : string)
| VDelta (d : Delta)
| VChange (c : Change)
| VSnapshot (s : Snapshot).

(** ** Type checkers *)

Definition MAX_SAFE_INTEGER : Z := 2 ^ 53 - 1.

Definition Number_isSafeInteger (n : Z) : bool :=
  (- MAX_SAFE_INTEGER <=? n) && (n <=? MAX_SAFE_INTEGER).

(** Modelled from the spec: the [typecheck] module ([TBoolean], [TInt],
    [TString]) is not among the sources; its checkers return the value when
    it has the named type and range and throw a bad-value error otherwise
    (the specification's [InvalidArgument]: bad shape, type or range). *)
Definition TBoolean_check (v : Value) : Outcome bool :=
  match v with
  | VBool b => Returned b
  | _ => Threw (bad_value "Boolean")
  end.

(** Modelled from the spec: [TInt.check] of the absent [typecheck] module;
    an [Int] is a number that is a safe integer. *)
Definition TInt_check (v : Value) : Outcome Z :=
  match v with
  | VInt n => if Number_isSafeInteger n then Returned n else Threw (bad_value "Int")
  | _ => Threw (bad_value "Int")
  end.

(** Modelled from the spec: [TInt.min(value, minInc)] of the absent
    [typecheck] module; an [Int] that is at least [minInc]. *)
Definition TInt_min (v : Value) (minInc : Z) : Outcome Z :=
  n <- TInt_check v ;;
  if n <? minInc then Threw (bad_value "value >= minInc") else Returned n.

(** Modelled from the spec: [TInt.nonNegative] of the absent [typecheck]
    module. *)
Definition TInt_nonNegative (v : Value) : Outcome Z := TInt_min v 0.

(** Modelled from the spec: [TString.nonempty] of the absent [typecheck]
    module. *)
Definition TString_nonempty (v : Value) : Outcome string :=
  match v with
  | VStr s => if String.eqb s "" then Threw (bad_value "String, nonempty") else Returned s
  | _ => Threw (bad_value "String, nonempty")
  end.

(** ** Numbers as strings *)

(** What a template literal makes of a number with an integer value (below
    10 to the power 21 in magnitude, as all safe integers are): its decimal
    digits, with a minus sign in front when it is negative. *)
Definition Number_toString (n : Z) : string :=
  NilZero.string_of_int (Z.to_int n).

(** ** VersionNumber *)

(** Modelled from the spec: [TInt.rangeInc(value, minInc, maxInc)] of the
    absent [typecheck] module; an [Int] within the inclusive range. *)
Definition TInt_rangeInc (v : Value) (minInc maxInc : Z) : Outcome Z :=
  n <- TInt_check v ;;
  if (n <? minInc) || (n >? maxInc)
  then Threw (bad_value "minInc <= value <= maxInc")
  else Returned n.

Module VersionNumber.

(** [check(value, max = undefined)], as written: the upper bound is tested
    under [(max !== undefined) && TInt.check(max) && (value > max)], where
    [TInt.check] returns [max] itself, a number that counts as true unless
    it is 0. The error carries the last string given to
    [TypeError.badValue]. *)
Definition check (value max : Value) : Outcome Z :=
  match value with
  | VInt n =>
      if negb (Number_isSafeInteger n) || (n <? 0)
      then Threw (bad_value "VersionNumber")
      else
        match max with
        | VUndefined => Returned n
        | _ =>
            m <- TInt_check max ;;
            if negb (m =? 0) && (n >? m)
            then Threw (bad_value ("value <= " ++ Number_toString m))
            else Returned n
        end
  | _ => Threw (bad_value "VersionNumber")
  end.

(** [orNull(value)]; [None] is [null]. *)
Definition orNull (value : Value) : Outcome (option Z) :=
  match (match value with
         | VNull => Returned None
         | _ => n <- check value VUndefined ;; ret (Some n)
         end) with
  | Returned r => Returned r
  | Threw _ => Threw (bad_value "VersionNumber|null")
  end.

(** [rangeInc(value, minInc, maxInc)]. *)
Definition rangeInc (value : Value) (minInc maxInc : Z) : Outcome Z :=
  match (v <- TInt_rangeInc value minInc maxInc ;; check (VInt v) VUndefined) with
  | Returned n => Returned n
  | Threw _ =>
      Threw (bad_value (Number_toString minInc ++ " <= value <= " ++ Number_toString maxInc))
  end.


End VersionNumber.

(** ** RevisionNumber *)

(** Modelled from the spec: the [RevisionNumber] class is not among the
    sources (only its callers are). Revision numbers are the non-negative
    integers; [check] accepts them as [VersionNumber.check] does without its
    [max] argument. *)
Definition RevisionNumber_check (value : Value) : Outcome Z :=
  VersionNumber.check value VUndefined.

(** [RevisionNumber.maxInc(value, maxInc)] is neither among the sources nor
    described by the specification. It stands here as
    [VersionNumber.check(value, max)], the one bounded check of these numbers
    that the sources have. The properties of the methods that call it use of
    it only that a revision number from 0 to a bound within the safe
    integers is returned as it is, or speak of its outcome without saying
    what the outcome is. *)
Definition RevisionNumber_maxInc (value : Value) (maxInc : Z) : Outcome Z :=
  VersionNumber.check value (VInt maxInc).

(** Modelled from the spec: [CommonBase.check] is not among the sources. The
    static [check] of a class returns its argument when it is an instance of
    that class and throws a bad-value error otherwise. *)
Definition Delta_check (cls : ClassId) (v : Value) : Outcome Delta :=
  match v with
  | VDelta d => if String.eqb (deltaClass d) cls then Returned d else Threw (bad_value cls)
  | _ => Threw (bad_value cls)
  end.

(** [v] is an instance of the delta class [cls]. *)
Definition is_delta_of (cls : ClassId) (v : Value) : bool :=
  match v with
  | VDelta d => String.eqb (deltaClass d) cls
  | _ => false
  end.

(** Modelled from the spec: [CommonBase.check] on a change class. *)
Definition Change_check (cls : ClassId) (v : Value) : Outcome Change :=
  match v with
  | VChange c => if String.eqb (changeClass c) cls then Returned c else Threw (bad_value cls)
  | _ => Threw (bad_value cls)
  end.

(** Modelled from the spec: [CommonBase.check] on a snapshot class. *)
Definition Snapshot_check (cls : ClassId) (v : Value) : Outcome Snapshot :=
  match v with
  | VSnapshot s => if String.eqb (snapshotClass s) cls then Returned s else Threw (bad_value cls)
  | _ => Threw (bad_value cls)
  end.

(** ** BaseDelta *)

(** The methods a concrete delta class has to fill in. Each receives [this],
    so one record serves every subclass; an implementation may return any
    value or throw. *)
Class DeltaImpl : Type := {
  _impl_compose : Delta -> Delta -> bool -> Outcome Value;
  _impl_isDocument : Delta -> Outcome Value
}.

Module BaseDelta.

(** [static get EMPTY()]: the instance of the class with no operations. *)
Definition EMPTY (cls : ClassId) : Delta := mkDelta cls [].

(** [isDocument()]. *)
Definition isDocument {I : DeltaImpl} (this : Delta) : Outcome bool :=
  result <- _impl_isDocument this ;;
  TBoolean_check result.

(** [isEmpty()]. *)
Definition isEmpty (this : Delta) : bool :=
  (Z.of_nat (List.length (ops this)) =? 0)%Z.

(** [compose(other, wantDocument)]. The conjunctions [wantDocument && ...]
    evaluate their right operand only when [wantDocument] is true. *)
Definition compose {I : DeltaImpl} (this : Delta) (other wantDocument : Value)
  : Outcome Delta :=
  other <- Delta_check (deltaClass this) other ;;
  wantDocument <- TBoolean_check wantDocument ;;
  notDoc <- (if wantDocument : bool
             then (d <- isDocument this ;; ret (negb d))
             else ret false) ;;
  if notDoc : bool then throw (bad_use "wantDocument === true on non-document instance.")
  else
    result <- _impl_compose this other wantDocument ;;
    result <- Delta_check (deltaClass this) result ;;
    notDoc <- (if wantDocument : bool
               then (d <- isDocument result ;; ret (negb d))
               else ret false) ;;
    if notDoc : bool
    then throw (wtf "Non-document return value when passed true for wantDocument.")
    else ret result.

End BaseDelta.

(** ** DocumentSnapshot *)

(** [FrozenDelta], the frozen wrapper of the rich-text delta library, is an
    external collaborator: its coercion, composition, difference and document
    test are the fields of this interface. [FrozenDelta_diff] receives
    whatever value the caller hands it. *)
Class FrozenDeltaImpl : Type := {
  FrozenDelta_coerce : Value -> Outcome Delta;
  FrozenDelta_compose : Delta -> Delta -> Outcome Value;
  FrozenDelta_diff : Delta -> Value -> Outcome Value;
  FrozenDelta_isDocument : Delta -> bool
}.

Module DocumentDelta.

Definition API_NAME : ClassId := "DocumentDelta".

(** Modelled from the spec: the [DocumentDelta] class is not among the
    sources. It is the change class of [DocumentSnapshot]: a revision number
    and a frozen delta, with neither timestamp nor author; its constructor
    checks the revision number and coerces the delta. *)
Definition new {I : FrozenDeltaImpl} (revNum delta : Value) : Outcome Change :=
  revNum <- RevisionNumber_check revNum ;;
  delta <- FrozenDelta_coerce delta ;;
  ret (mkChange API_NAME revNum delta None None).

End DocumentDelta.

Module DocumentSnapshot.

Definition API_NAME : ClassId := "DocumentSnapshot".

(** [constructor(revNum, contents)]. *)
Definition new {I : FrozenDeltaImpl} (revNum contents : Value) : Outcome Snapshot :=
  revNum <- RevisionNumber_check revNum ;;
  contents <- FrozenDelta_coerce contents ;;
  if negb (FrozenDelta_isDocument contents)
  then throw (plain_error "Expected contents to be a document (insert-only delta).")
  else ret (mkSnapshot API_NAME revNum contents).

(** [compose(delta)]; the parameter, a [DocumentDelta], is called [change]
    here. *)
Definition compose {I : FrozenDeltaImpl} (this : Snapshot) (change : Value)
  : Outcome Snapshot :=
  change <- Change_check DocumentDelta.API_NAME change ;;
  composed <- FrozenDelta_compose (contents this) (delta change) ;;
  contents <- FrozenDelta_coerce composed ;;
  new (VInt (revNum change)) (VDelta contents).

(** [diff(newerSnapshot)]. The argument of the contents' [diff] is
    [newerSnapshot] itself. *)
Definition diff {I : FrozenDeltaImpl} (this : Snapshot) (newerSnapshot : Value)
  : Outcome Change :=
  newer <- Snapshot_check API_NAME newerSnapshot ;;
  difference <- FrozenDelta_diff (contents this) newerSnapshot ;;
  delta <- FrozenDelta_coerce difference ;;
  DocumentDelta.new (VInt (snapRevNum newer)) (VDelta delta).

End DocumentSnapshot.

(** ** BaseControl *)

(** What the controller writes to its log. *)
Inductive LogMsg : Type :=
| UpdateAttempt (attemptCount : Z)
| Sleeping (msec : Z).

(** The calls a controller makes on its subclass, its logger and the timer, in
    the order they are made. *)
Inductive Event : Type :=
| call_currentRevNum
| call_getChangeAfter (baseRevNum currentRevNum : Z)
| call_getSnapshot (revNum : Z)
| call_update (baseSnapshot : Snapshot) (change : Change) (expectedSnapshot : Snapshot)
| log_info (msg : LogMsg)
| Delay_resolve (msec : Z).

(** The world a controller runs in: the state behind the subclass (the
    revision log and whatever else it keeps) and the calls made so far,
    oldest first. A controller sees the store through the answers of the
    subclass only, so what other requests do to the store while a method
    waits is part of how the store answers the next call. *)
Record World (S : Type) : Type := mkWorld { store : S; trace : list Event }.
Arguments mkWorld {S} store trace.
Arguments store {S} w.
Arguments trace {S} w.

(** An asynchronous method: from a world to an outcome and the world it
    leaves. *)
Definition Run (S A : Type) : Type := World S -> Outcome A * World S.

#[export] Instance Monad_Run (S : Type) : Monad (Run S) := {
  ret := fun A a w => (Returned a, w);
  bind := fun A B c k w =>
    match c w with
    | (Returned a, w') => k a w'
    | (Threw e, w') => (Threw e, w')
    end;
  throw := fun A e w => (Threw e, w)
}.

(** A synchronous computation inside an asynchronous method. *)
Definition lift {S A : Type} (o : Outcome A) : Run S A := fun w => (o, w).

(** A call of one of the subclass's methods. *)
Definition call {S A : Type} (ev : Event) (f : S -> Outcome A * S) : Run S A :=
  fun w =>
    let (r, s') := f (store w) in
    (r, mkWorld s' (trace w ++ [ev])).

(** A call on the logger or the timer. *)
Definition emit {S : Type} (ev : Event) : Run S unit :=
  fun w => (Returned tt, mkWorld (store w) (trace w ++ [ev])).

(** The class-level properties and the [_impl_] methods of a concrete
    controller class over a store of type [S]. [snapshot_compose] is the
    [compose] of the snapshot class. *)
Class ControlImpl (S : Type) : Type := {
  control_changeClass : ClassId;
  control_deltaClass : ClassId;
  control_snapshotClass : ClassId;
  snapshot_compose : Snapshot -> Change -> Outcome Snapshot;
  _impl_currentRevNum : S -> Outcome Value * S;
  _impl_getChangeAfter : Z -> Z -> S -> Outcome Value * S;
  _impl_getSnapshot : Z -> S -> Outcome Value * S;
  _impl_update : Snapshot -> Change -> Snapshot -> S -> Outcome Value * S
}.

Module BaseChange.

(** Modelled from the spec: the [BaseChange] class is not among the sources.
    [FIRST] is the empty, timeless and authorless change of a change class,
    at revision 0. *)
Definition FIRST (cls dcls : ClassId) : Change :=
  mkChange cls 0 (BaseDelta.EMPTY dcls) None None.

(** Modelled from the spec: [withRevNum] of the absent [BaseChange]; it
    returns [this] when the revision number is the one it has and otherwise a
    new instance with the number replaced, after checking the number. *)
Definition withRevNum (this : Change) (newRevNum : Value) : Outcome Change :=
  r <- RevisionNumber_check newRevNum ;;
  ret (if r =? revNum this then this
       else mkChange (changeClass this) r (delta this) (timestamp this) (authorId this)).

End BaseChange.

Module Errors.

(** [Errors.revision_not_available(revNum)]: the argument is checked before
    the error is constructed. *)
Definition mk_revision_not_available (revNum : Value) : Error :=
  match TInt_nonNegative revNum with
  | Returned n => revision_not_available n
  | Threw e => e
  end.

End Errors.

Module BaseControl.

Definition INITIAL_UPDATE_RETRY_MSEC : Z := 50.
Definition UPDATE_RETRY_GROWTH_FACTOR : Z := 5.
Definition MAX_UPDATE_TIME_MSEC : Z := 20 * 1000.

Section Methods.
Context {S : Type} {I : ControlImpl S}.

(** [currentRevNum()]. *)
Definition currentRevNum : Run S Z :=
  revNum <- call call_currentRevNum _impl_currentRevNum ;;
  lift (RevisionNumber_check revNum).

(** [getChangeAfter(baseRevNum)]. *)
Definition getChangeAfter (baseRevNum : Value) : Run S Change :=
  currentRevNum <- currentRevNum ;;
  base <- lift (RevisionNumber_maxInc baseRevNum currentRevNum) ;;
  result <- call (call_getChangeAfter base currentRevNum)
                 (_impl_getChangeAfter base currentRevNum) ;;
  match result with
  | VNull => throw (Errors.mk_revision_not_available baseRevNum)
  | _ =>
      result <- lift (Change_check control_changeClass result) ;;
      match timestamp result, authorId result with
      | None, None => ret result
      | _, _ => throw (bad_value "timestamp === null && authorId === null")
      end
  end.

(** [getSnapshot(revNum = null)]. *)
Definition getSnapshot (revNum : Value) : Run S Snapshot :=
  let revNum := match revNum with VUndefined => VNull | _ => revNum end in
  currentRevNum <- currentRevNum ;;
  revNum <- match revNum with
            | VNull => ret currentRevNum
            | _ => lift (RevisionNumber_maxInc revNum currentRevNum)
            end ;;
  result <- call (call_getSnapshot revNum) (_impl_getSnapshot revNum) ;;
  match result with
  | VNull => throw (Errors.mk_revision_not_available (VInt revNum))
  | _ => lift (Snapshot_check control_snapshotClass result)
  end.

(** The [for (;;)] loop of [update()], with the loop variables as arguments.
    [None] means that [fuel] iterations were not enough. *)
Fixpoint update_loop (fuel : nat) (retryDelayMsec retryTotalMsec attemptCount : Z)
    (baseSnapshot : Snapshot) (change : Change) (expectedSnapshot : Snapshot)
  : Run S (option Value) :=
  match fuel with
  | O => ret None
  | Datatypes.S fuel' =>
      let attemptCount := attemptCount + 1 in
      (if attemptCount =? 1 then ret tt else emit (log_info (UpdateAttempt attemptCount))) ;;;
      result <- call (call_update baseSnapshot change expectedSnapshot)
                     (_impl_update baseSnapshot change expectedSnapshot) ;;
      match result with
      | VNull =>
          if retryTotalMsec >=? MAX_UPDATE_TIME_MSEC
          then throw (aborted "Too many failed attempts in update().")
          else
            emit (log_info (Sleeping retryDelayMsec)) ;;;
            emit (Delay_resolve retryDelayMsec) ;;;
            update_loop fuel' (retryDelayMsec * UPDATE_RETRY_GROWTH_FACTOR)
                        (retryTotalMsec + retryDelayMsec) attemptCount
                        baseSnapshot change expectedSnapshot
      | _ => ret (Some result)
      end
  end.

(** [update(change)]. *)
Definition update (fuel : nat) (change : Value) : Run S (option Value) :=
  change <- lift (Change_check control_changeClass change) ;;
  match timestamp change with
  | None => throw (bad_value "timestamp !== null")
  | Some _ =>
      let baseRevNum := revNum change - 1 in
      if baseRevNum <? 0 then throw (bad_value "revNum >= 1")
      else if BaseDelta.isEmpty (delta change)
      then
        correction <- lift (BaseChange.withRevNum
                              (BaseChange.FIRST control_changeClass control_deltaClass)
                              (VInt (revNum change - 1))) ;;
        ret (Some (VChange correction))
      else
        baseSnapshot <- getSnapshot (VInt baseRevNum) ;;
        expectedSnapshot <- lift (snapshot_compose baseSnapshot change) ;;
        update_loop fuel INITIAL_UPDATE_RETRY_MSEC 0 0
                    baseSnapshot change expectedSnapshot
  end.

(** One attempt of the loop, seen from outside: the log line that every
    attempt but the first writes, then the call of [_impl_update].
    [attemptCount] is the number of attempts made before this one. *)
Definition attempt (attemptCount : Z)
    (baseSnapshot : Snapshot) (change : Change) (expectedSnapshot : Snapshot)
  : Run S Value :=
  (if attemptCount + 1 =? 1 then ret tt
   else emit (log_info (UpdateAttempt (attemptCount + 1)))) ;;;
  call (call_update baseSnapshot change expectedSnapshot)
       (_impl_update baseSnapshot change expectedSnapshot).

(** The pause after a lost race. *)
Definition sleep (retryDelayMsec : Z) : Run S unit :=
  emit (log_info (Sleeping retryDelayMsec)) ;;;
  emit (Delay_resolve retryDelayMsec).

(** The world after [k] attempts that each lost the race (the subclass
    returned [null]) and were each followed by the pause; [None] when one of
    the [k] attempts did anything else. *)
Fixpoint lost_races (k : nat) (retryDelayMsec attemptCount : Z)
    (baseSnapshot : Snapshot) (change : Change) (expectedSnapshot : Snapshot)
    (w : World S) : option (World S) :=
  match k with
  | O => Some w
  | Datatypes.S k' =>
      match attempt attemptCount baseSnapshot change expectedSnapshot w with
      | (Returned VNull, w1) =>
          lost_races k' (retryDelayMsec * UPDATE_RETRY_GROWTH_FACTOR) (attemptCount + 1)
                     baseSnapshot change expectedSnapshot (snd (sleep retryDelayMsec w1))
      | _ => None
      end
  end.

End Methods.

(** The pause before retry number [i + 1]. *)
Definition retry_delay (i : nat) : Z :=
  INITIAL_UPDATE_RETRY_MSEC * UPDATE_RETRY_GROWTH_FACTOR ^ Z.of_nat i.

(** The pauses of a trace, in order. *)
Fixpoint delays (t : list Event) : list Z :=
  match t with
  | [] => []
  | Delay_resolve msec :: rest => msec :: delays rest
  | _ :: rest => delays rest
  end.

(** The loop variables after [k] lost races. *)
Fixpoint delay_after (k : nat) (retryDelayMsec : Z) : Z :=
  match k with
  | O => retryDelayMsec
  | Datatypes.S k' => delay_after k' (retryDelayMsec * UPDATE_RETRY_GROWTH_FACTOR)
  end.

Fixpoint total_after (k : nat) (retryDelayMsec retryTotalMsec : Z) : Z :=
  match k with
  | O => retryTotalMsec
  | Datatypes.S k' =>
      total_after k' (retryDelayMsec * UPDATE_RETRY_GROWTH_FACTOR)
                  (retryTotalMsec + retryDelayMsec)
  end.

(** None of the first [k] lost races found the retry time used up. *)
Fixpoint within_budget (k : nat) (retryDelayMsec retryTotalMsec : Z) : bool :=
  match k with
  | O => true
  | Datatypes.S k' =>
      (retryTotalMsec <? MAX_UPDATE_TIME_MSEC)
      && within_budget k' (retryDelayMsec * UPDATE_RETRY_GROWTH_FACTOR)
                       (retryTotalMsec + retryDelayMsec)
  end.

(** The pauses of [k] lost races. *)
Fixpoint delays_from (k : nat) (retryDelayMsec : Z) : list Z :=
  match k with
  | O => []
  | Datatypes.S k' =>
      retryDelayMsec :: delays_from k' (retryDelayMsec * UPDATE_RETRY_GROWTH_FACTOR)
  end.

(** Six iterations are always enough from the initial loop variables. *)
Definition enough_fuel : nat := 6.

End BaseControl.

(** ** AuthorSession *)

Module AuthorSession.

(** The file complex a session is bound to; its two controllers are the
    targets of the calls below. *)
Record FileComplex : Type := mkFileComplex { file_id : string }.

(** The instance fields. *)
Record t : Type := mkSession {
  _fileComplex : FileComplex;
  _sessionId : string;
  _authorId : string
}.

(** [constructor(fileComplex, sessionId, authorId)]. *)
Definition new (fileComplex : FileComplex) (sessionId authorId : Value) : Outcome t :=
  sessionId <- TString_nonempty sessionId ;;
  authorId <- TString_nonempty authorId ;;
  ret (mkSession fileComplex sessionId authorId).

(** What a method of the session does: one call on the document controller
    or on the caret controller, whose result is the method's result, or a
    string computed from the instance's own fields. *)
Inductive Action : Type :=
| docControl_applyDelta (baseRevNum delta : Value) (authorId : string)
| docControl_change (revNum : Value)
| docControl_deltaAfter (baseRevNum : Value)
| docControl_snapshot (revNum : Value)
| caretControl_deltaAfter (baseRevNum : Value)
| caretControl_snapshot (revNum : Value)
| caretControl_update (sessionId : string) (docRevNum index length : Value)
| return_string (s : string).

(** A parameter with a default value takes it when the argument is
    [undefined]. *)
Definition or_default (v d : Value) : Value :=
  match v with VUndefined => d | _ => v end.

Definition applyDelta (this : t) (baseRevNum delta : Value) : Action :=
  docControl_applyDelta baseRevNum delta (_authorId this).

Definition change (this : t) (revNum : Value) : Action :=
  docControl_change revNum.

Definition deltaAfter (this : t) (baseRevNum : Value) : Action :=
  docControl_deltaAfter baseRevNum.

Definition getLogInfo (this : t) : Action :=
  let file := file_id (_fileComplex this) in
  let session := _sessionId this in
  let author := _authorId this in
  return_string ("file " ++ file ++ "; session " ++ session ++ "; author " ++ author).

Definition getSessionId (this : t) : Action :=
  return_string (_sessionId this).

Definition snapshot (this : t) (revNum : Value) : Action :=
  docControl_snapshot (or_default revNum VNull).

Definition caretDeltaAfter (this : t) (baseRevNum : Value) : Action :=
  caretControl_deltaAfter baseRevNum.

Definition caretSnapshot (this : t) (revNum : Value) : Action :=
  caretControl_snapshot (or_default revNum VNull).

Definition caretUpdate (this : t) (docRevNum index length : Value) : Action :=
  caretControl_update (_sessionId this) docRevNum index (or_default length (VInt 0)).

(** The [i]-th argument of a call; missing arguments are [undefined] and
    surplus ones are ignored. *)
Definition arg (args : list Value) (i : nat) : Value := nth i args VUndefined.

(** A call across the API boundary: a method name and the caller's arguments.
    Every public method of the class can be named; nothing else can. *)
Definition invoke (this : t) (method : string) (args : list Value) : option Action :=
  if String.eqb method "applyDelta" then Some (applyDelta this (arg args 0) (arg args 1))
  else if String.eqb method "change" then Some (change this (arg args 0))
  else if String.eqb method "deltaAfter" then Some (deltaAfter this (arg args 0))
  else if String.eqb method "getLogInfo" then Some (getLogInfo this)
  else if String.eqb method "getSessionId" then Some (getSessionId this)
  else if String.eqb method "snapshot" then Some (snapshot this (arg args 0))
  else if String.eqb method "caretDeltaAfter" then Some (caretDeltaAfter this (arg args 0))
  else if String.eqb method "caretSnapshot" then Some (caretSnapshot this (arg args 0))
  else if String.eqb method "caretUpdate"
       then Some (caretUpdate this (arg args 0) (arg args 1) (arg args 2))
  else None.

(** The author identity a controller call carries, if it carries one. *)
Definition author_of (a : Action) : option string :=
  match a with
  | docControl_applyDelta _ _ authorId => Some authorId
  | _ => None
  end.

(** The session identity a controller call carries, if it carries one. *)
Definition session_of (a : Action) : option string :=
  match a with
  | caretControl_update sessionId _ _ _ => Some sessionId
  | _ => None
  end.

End AuthorSession.

(** ** BaseFile *)

Module BaseFile.

(** The [data] property of what [_impl_transact] returns: [null], a map from
    storage paths to buffers, or something else. *)
Inductive DataField : Type :=
| data_null
| data_map (m : list (string * string))
| data_other.

(** What [_impl_transact] returns: an object with exactly the keys [revNum],
    [newRevNum] and [data], or any other value. *)
Inductive ImplResult : Type :=
| exact_keys (revNum newRevNum : Value) (data : DataField)
| other_result.

(** What [transact] returns: [newRevNum] and [data] are absent when the
    subclass gave [null] for them. *)
Record TransactionResult : Type := mkResult {
  result_revNum : Z;
  result_newRevNum : option Z;
  result_data : option (list (string * string))
}.

(** The methods a concrete file class has to fill in, over a store of type
    [S]. [empty_spec] is [new TransactionSpec()]. *)
Class FileImpl (S : Type) : Type := {
  TransactionSpec : Type;
  empty_spec : TransactionSpec;
  _impl_create : S -> Outcome unit * S;
  _impl_transact : TransactionSpec -> S -> Outcome ImplResult * S
}.

(** A file object: the store behind the subclass and the instance field
    [_lastRevNum]. *)
Record File (S : Type) : Type := mkFile { file_store : S; _lastRevNum : Z }.
Arguments mkFile {S} file_store _lastRevNum.
Arguments file_store {S} f.
Arguments _lastRevNum {S} f.

Definition FileM (S A : Type) : Type := File S -> Outcome A * File S.

#[export] Instance Monad_FileM (S : Type) : Monad (FileM S) := {
  ret := fun A a f => (Returned a, f);
  bind := fun A B c k f =>
    match c f with
    | (Returned a, f') => k a f'
    | (Threw e, f') => (Threw e, f')
    end;
  throw := fun A e f => (Threw e, f)
}.

Definition lift {S A : Type} (o : Outcome A) : FileM S A := fun f => (o, f).

Definition call {S A : Type} (m : S -> Outcome A * S) : FileM S A :=
  fun f => let (r, s') := m (file_store f) in (r, mkFile s' (_lastRevNum f)).

Definition get_lastRevNum {S : Type} : FileM S Z :=
  fun f => (Returned (_lastRevNum f), f).

Definition set_lastRevNum {S : Type} (n : Z) : FileM S unit :=
  fun f => (Returned tt, mkFile (file_store f) n).

Section Methods.
Context {S : Type} {I : FileImpl S}.

(** [constructor(fileId)], as far as the revision number goes. *)
Definition new (s : S) : File S := mkFile s (-1).

(** [create()]. *)
Definition create : FileM S unit :=
  call _impl_create ;;;
  set_lastRevNum 0.

(** [transact(spec)]. *)
Definition transact (spec : TransactionSpec) : FileM S TransactionResult :=
  result <- call (_impl_transact spec) ;;
  match result with
  | other_result => throw (bad_value "object with keys revNum, newRevNum, data")
  | exact_keys revNum newRevNum data =>
      revNum <- lift (TInt_nonNegative revNum) ;;
      newRevNum <- match newRevNum with
                   | VNull => ret None
                   | _ => n <- lift (TInt_min newRevNum (revNum + 1)) ;; ret (Some n)
                   end ;;
      data <- match data with
              | data_null => ret None
              | data_map m => ret (Some m)
              | data_other => throw (bad_value "Map")
              end ;;
      ret (mkResult revNum newRevNum data)
  end.

(** [revNum()] from the point where its [await] of the transaction is over:
    the check of the number against the recorded one, the recording and the
    return. Nothing suspends in between. *)
Definition revNum_resume (revNum : Z) : FileM S Z :=
  last <- get_lastRevNum ;;
  lift (TInt_min (VInt revNum) last) ;;;
  set_lastRevNum revNum ;;;
  ret revNum.

(** [revNum()], with nothing else running while it waits. *)
Definition revNum : FileM S Z :=
  let spec := empty_spec in
  transactionResult <- transact spec ;;
  let revNum := result_revNum transactionResult in
  revNum_resume revNum.

(** The calls made on one file object, one after the other, and the replies
    they get. Calls of [revNum()] may overlap: [do_revNum_resume n] is a
    [revNum()] whose transaction gave [n] at some earlier time and which
    goes on only now, after other calls have run. *)
Inductive Call : Type :=
| do_create
| do_transact (spec : TransactionSpec)
| do_revNum
| do_revNum_resume (n : Z).

Inductive Reply : Type :=
| create_reply (o : Outcome unit)
| transact_reply (o : Outcome TransactionResult)
| revNum_reply (o : Outcome Z).

Definition step (c : Call) (f : File S) : Reply * File S :=
  match c with
  | do_create => let (o, f') := create f in (create_reply o, f')
  | do_transact spec => let (o, f') := transact spec f in (transact_reply o, f')
  | do_revNum => let (o, f') := revNum f in (revNum_reply o, f')
  | do_revNum_resume n => let (o, f') := revNum_resume n f in (revNum_reply o, f')
  end.

Fixpoint run (calls : list Call) (f : File S) : list Reply * File S :=
  match calls with
  | [] => ([], f)
  | c :: rest =>
      let (r, f') := step c f in
      let (rs, f'') := run rest f' in
      (r :: rs, f'')
  end.

(** The revision numbers that successful [revNum()] calls reported, in
    order. *)
Fixpoint reported (replies : list Reply) : list Z :=
  match replies with
  | [] => []
  | revNum_reply (Returned n) :: rest => n :: reported rest
  | _ :: rest => reported rest
  end.

Definition is_create (c : Call) : bool :=
  match c with do_create => true | _ => false end.

End Methods.

End BaseFile.

(** ** Paths *)

Module Paths.

Definition FORMAT_VERSION : string := "/format_version".

Definition REVISION_NUMBER : string := "/revision_number".

(** [forDocumentChange(revNum)]. *)
Definition forDocumentChange (revNum : Value) : Outcome string :=
  n <- RevisionNumber_check revNum ;;
  ret ("/change/" ++ Number_toString n)%string.

End Paths.

(** ** DocumentSnapshot: API transmission *)

Module DocumentSnapshotApi.

(** [toApi()]: the array of reconstruction arguments. *)
Definition toApi (this : Snapshot) : list Value :=
  [VInt (snapRevNum this); VDelta (contents this)].

(** [fromApi(revNum, contents)]. *)
Definition fromApi {I : FrozenDeltaImpl} (revNum contents : Value) : Outcome Snapshot :=
  DocumentSnapshot.new revNum contents.

(** [fromApi(...args)]: missing arguments are [undefined]. *)
Definition fromApi_spread {I : FrozenDeltaImpl} (args : list Value) : Outcome Snapshot :=
  fromApi (nth 0 args VUndefined) (nth 1 args VUndefined).

End DocumentSnapshotApi.

(** ** BaseFile: timeouts and waiting *)

Module BaseFileWait.

(** What a caller gives as the unchanged value: a frozen buffer, of which
    only the hash matters, or any other value. *)
Inductive ValueOrHash : Type :=
| a_buffer (hash : string)
| a_value (v : Value).

(** What a concrete file class provides for waiting: the two bounds, each an
    [Int] or [null], and [_impl_whenChange]. [StoragePath_check] is the
    [check] of the [StoragePath] class of the same module, which is not
    among the sources. *)
Class WaitImpl (S : Type) : Type := {
  minTimeoutMsec : option Z;
  maxTimeoutMsec : option Z;
  StoragePath_check : Value -> Outcome string;
  _impl_whenChange : Z -> string -> option string -> S -> Outcome Value * S
}.

Definition ONE_DAY_MSEC : Z := 24 * 60 * 60 * 1000.

#[local] Existing Instance BaseFile.Monad_FileM.

Section Methods.
Context {S : Type} {I : WaitImpl S}.

(** [clampTimeoutMsec(value)]. *)
Definition clampTimeoutMsec (value : Value) : Outcome Z :=
  match value with
  | VStr "never" =>
      match maxTimeoutMsec with
      | None => Returned ONE_DAY_MSEC
      | Some value => Returned value
      end
  | _ =>
      value <- TInt_nonNegative value ;;
      let value := match minTimeoutMsec with
                   | Some minTimeoutMsec => Z.max value minTimeoutMsec
                   | None => value
                   end in
      let value := match maxTimeoutMsec with
                   | Some maxTimeoutMsec => Z.min value maxTimeoutMsec
                   | None => value
                   end in
      Returned value
  end.

(** [whenChange(timeoutMsec, storagePath, valueOrHash)]. *)
Definition whenChange (timeoutMsec storagePath : Value) (valueOrHash : ValueOrHash)
  : BaseFile.FileM S Value :=
  timeoutMsec <- BaseFile.lift (clampTimeoutMsec timeoutMsec) ;;
  storagePath <- BaseFile.lift (StoragePath_check storagePath) ;;
  valueOrHash <- match valueOrHash return BaseFile.FileM S (option string) with
                 | a_buffer hash => ret (Some hash)
                 | a_value VNull => ret None
                 | a_value v => h <- BaseFile.lift (TString_nonempty v) ;; ret (Some h)
                 end ;;
  BaseFile.call (_impl_whenChange timeoutMsec storagePath valueOrHash).

End Methods.

End BaseFileWait.

(** ** The checks of BaseFile.transact, on their own *)

(** What [transact] does with the answer of the subclass, once it has it:
    the checks and conversions after the [await]. *)
Definition transact_validate (result : BaseFile.ImplResult)
  : Outcome BaseFile.TransactionResult :=
  match result with
  | BaseFile.other_result => Threw (bad_value "object with keys revNum, newRevNum, data")
  | BaseFile.exact_keys revNum newRevNum data =>
      revNum <- TInt_nonNegative revNum ;;
      newRevNum <- match newRevNum with
                   | VNull => Returned None
                   | _ => n <- TInt_min newRevNum (revNum + 1) ;; Returned (Some n)
                   end ;;
      data <- match data with
              | BaseFile.data_null => Returned None
              | BaseFile.data_map m => Returned (Some m)
              | BaseFile.data_other => Threw (bad_value "Map")
              end ;;
      Returned (BaseFile.mkResult revNum newRevNum data)
  end.

(** ** Reading traces *)

(** The update attempts of a trace, in order: the arguments with which
    [_impl_update] was called. *)
Fixpoint attempts_in (t : list Event) : list (Snapshot * Change * Snapshot) :=
  match t with
  | [] => []
  | call_update b c e :: rest => (b, c, e) :: attempts_in rest
  | _ :: rest => attempts_in rest
  end.

(** The sum of a list of numbers. *)
Definition sum_msec (l : list Z) : Z := fold_right Z.add 0 l.

(** ** Concrete classes for running the code *)

Module Mock.

(** Two delta classes in the manner of the mocks of the test suite. A delta
    is a document unless one of its operations is named [notDocument].
    Composing two instances of [MockDelta] gives a marker operation followed
    by the first operation of the argument, as test_BaseSnapshot.js expects;
    [WrongDelta] ignores [wantDocument] and answers with a non-document. *)
Definition isNotDocumentOp (o : Op) : bool := String.eqb (opName o) "notDocument".

#[export] Instance deltaImpl : DeltaImpl := {
  _impl_isDocument := fun this => Returned (VBool (negb (existsb isNotDocumentOp (ops this))));
  _impl_compose := fun this other wantDocument =>
    if String.eqb (deltaClass this) "WrongDelta"
    then Returned (VDelta (mkDelta "WrongDelta" [mkOp "notDocument" []]))
    else Returned (VDelta (mkDelta (deltaClass this)
           (mkOp (if wantDocument then "composedDoc" else "composedNotDoc") []
            :: firstn 1 (ops other))))
}.

Definition MockOp (name : string) : Op := mkOp name [].
Definition MockDelta (l : list Op) : Delta := mkDelta "MockDelta" l.
Definition WrongDelta (l : list Op) : Delta := mkDelta "WrongDelta" l.

(** A stand-in for the rich-text delta library on the deltas that documents
    are made of: a document is a delta of [insert] operations, coercion
    accepts any delta, composing a delta of inserts onto a document puts its
    inserts in front, and the difference of two deltas of inserts, taken
    only when they are the same, is empty. Whatever else it is asked, among
    it the difference with a value that is not a delta, it throws as the
    engine does on a missing method. *)
Definition isInsert (o : Op) : bool := String.eqb (opName o) "insert".

Definition op_eqb (a b : Op) : bool :=
  String.eqb (opName a) (opName b)
  && (if list_eq_dec string_dec (opArgs a) (opArgs b) then true else false).

Fixpoint ops_eqb (l1 l2 : list Op) : bool :=
  match l1, l2 with
  | [], [] => true
  | a :: l1', b :: l2' => op_eqb a b && ops_eqb l1' l2'
  | _, _ => false
  end.

#[export] Instance frozenDeltaImpl : FrozenDeltaImpl := {
  FrozenDelta_coerce := fun v =>
    match v with
    | VDelta d => Returned (mkDelta "FrozenDelta" (ops d))
    | _ => Threw (bad_value "FrozenDelta")
    end;
  FrozenDelta_isDocument := fun d => forallb isInsert (ops d);
  FrozenDelta_compose := fun this other =>
    if forallb isInsert (ops other)
    then Returned (VDelta (mkDelta "Delta" (ops other ++ ops this)))
    else Threw (subclass_error "compose: not modelled");
  FrozenDelta_diff := fun this other =>
    match other with
    | VDelta d =>
        if ops_eqb (ops this) (ops d) then Returned (VDelta (mkDelta "Delta" []))
        else Threw (subclass_error "diff: not modelled")
    | _ => Threw (type_error "other.map is not a function")
    end
}.

(** The store of a mock controller: the current revision number, how many
    revisions back it can still serve, and what the coming update attempts
    will answer (a lost race once the list is used up). *)
Record Store : Type := mkStore {
  head : Z;
  retained : Z;
  attempts : list (Outcome Value)
}.

Definition MockSnapshot (r : Z) (l : list Op) : Snapshot :=
  mkSnapshot "MockSnapshot" r (MockDelta l).

Definition MockChange (r : Z) (l : list Op) (ts : option Z) (au : option string) : Change :=
  mkChange "MockChange" r (MockDelta l) ts au.

#[export] Instance controlImpl : ControlImpl Store := {
  control_changeClass := "MockChange";
  control_deltaClass := "MockDelta";
  control_snapshotClass := "MockSnapshot";
  snapshot_compose := fun s c =>
    contents <- BaseDelta.compose (contents s) (VDelta (delta c)) (VBool true) ;;
    ret (mkSnapshot (snapshotClass s) (revNum c) contents);
  _impl_currentRevNum := fun s => (Returned (VInt (head s)), s);
  _impl_getChangeAfter := fun baseRevNum currentRevNum s =>
    if baseRevNum <? head s - retained s then (Returned VNull, s)
    else (Returned (VChange (MockChange (baseRevNum + 1) [MockOp "x"] None None)), s);
  _impl_getSnapshot := fun revNum s =>
    if revNum <? head s - retained s then (Returned VNull, s)
    else (Returned (VSnapshot (MockSnapshot revNum [])), s);
  _impl_update := fun baseSnapshot change expectedSnapshot s =>
    match attempts s with
    | [] => (Returned VNull, s)
    | o :: rest => (o, mkStore (head s) (retained s) rest)
    end
}.

(** A file whose store is its revision number: a transaction with [n > 0]
    writes moves it up by one, and [create] starts it again at 0. *)
#[export] Instance fileImpl : BaseFile.FileImpl Z := {
  BaseFile.TransactionSpec := nat;
  BaseFile.empty_spec := O;
  BaseFile._impl_create := fun s => (Returned tt, 0);
  BaseFile._impl_transact := fun spec s =>
    match spec with
    | O => (Returned (BaseFile.exact_keys (VInt s) VNull BaseFile.data_null), s)
    | _ => (Returned (BaseFile.exact_keys (VInt s) (VInt (s + 1)) BaseFile.data_null), s + 1)
    end
}.

End Mock.

(** Two more file classes of the same kind, with the revision number as
    the store and the number of write operations as the transaction spec.
    The file of [batchFileImpl] makes one revision for each write operation
    of a transaction; the file of [quietFileImpl] makes one revision for a
    transaction with writes and answers [null] for [newRevNum] all the
    same. *)
Module MockFiles.

#[export] Instance batchFileImpl : BaseFile.FileImpl Z := {
  BaseFile.TransactionSpec := nat;
  BaseFile.empty_spec := O;
  BaseFile._impl_create := fun s => (Returned tt, 0);
  BaseFile._impl_transact := fun spec s =>
    match spec with
    | O => (Returned (BaseFile.exact_keys (VInt s) VNull BaseFile.data_null), s)
    | _ => (Returned (BaseFile.exact_keys (VInt s) (VInt (s + Z.of_nat spec))
                        BaseFile.data_null),
            s + Z.of_nat spec)
    end
}.

#[export] Instance quietFileImpl : BaseFile.FileImpl Z := {
  BaseFile.TransactionSpec := nat;
  BaseFile.empty_spec := O;
  BaseFile._impl_create := fun s => (Returned tt, 0);
  BaseFile._impl_transact := fun spec s =>
    match spec with
    | O => (Returned (BaseFile.exact_keys (VInt s) VNull BaseFile.data_null), s)
    | _ => (Returned (BaseFile.exact_keys (VInt s) VNull BaseFile.data_null), s + 1)
    end
}.

End MockFiles.

(** A file class for running [whenChange]: timeouts between 100 msec and
    five minutes, storage paths that begin with a slash, and a store that
    never changes, so that every wait times out. *)
Module MockWait.

#[export] Instance waitImpl : BaseFileWait.WaitImpl Z := {
  BaseFileWait.minTimeoutMsec := Some 100;
  BaseFileWait.maxTimeoutMsec := Some 300000;
  BaseFileWait.StoragePath_check := fun v =>
    match v with
    | VStr (String "/" rest) => Returned (String "/" rest)
    | _ => Threw (bad_value "StoragePath")
    end;
  BaseFileWait._impl_whenChange := fun timeoutMsec storagePath valueOrHash s =>
    (Returned (VBool false), s)
}.

End MockWait.

(** * Properties *)

(** ** BaseDelta.compose *)

Lemma Delta_check_not_instance (cls : ClassId) (v : Value) :
  is_delta_of cls v = false -> Delta_check cls v = Threw (bad_value cls).
Proof.
  destruct v; simpl; try reflexivity.
  intros ->. reflexivity.
Qed.

Lemma Delta_check_instance (d : Delta) :
  Delta_check (deltaClass d) (VDelta d) = Returned d.
Proof.
  simpl. now rewrite String.eqb_refl.
Qed.

Lemma Delta_check_same_class (cls : ClassId) (d : Delta) :
  deltaClass d = cls -> Delta_check cls (VDelta d) = Returned d.
Proof.
  intros <-. apply Delta_check_instance.
Qed.

(** C8. [a.compose(b, wantDocument)] throws a bad-value error when [b] is
    not an instance of the class of [a]; it throws an error of the
    invalid-argument category when [wantDocument] is [true] and
    [a.isDocument()] is [false] (the bad-use error when [b] is acceptable);
    and when [wantDocument] is [true], [a] is a document, and the subclass
    answers with an instance of the class that is not a document, it throws
    [wtf], whose category is the internal-consistency one and not the
    invalid-argument one. *)
Theorem BaseDelta_compose_errors (I : DeltaImpl) (a : Delta) (b wantDocument : Value) :
  (is_delta_of (deltaClass a) b = false ->
     BaseDelta.compose a b wantDocument = Threw (bad_value (deltaClass a))
     /\ category (bad_value (deltaClass a)) = InvalidArgument)
  /\ (wantDocument = VBool true -> BaseDelta.isDocument a = Returned false ->
     exists e, BaseDelta.compose a b wantDocument = Threw e
               /\ category e = InvalidArgument
               /\ (is_delta_of (deltaClass a) b = true -> exists msg, e = bad_use msg))
  /\ (forall d r : Delta,
       b = VDelta d -> deltaClass d = deltaClass a ->
       wantDocument = VBool true ->
       BaseDelta.isDocument a = Returned true ->
       _impl_compose a d true = Returned (VDelta r) ->
       deltaClass r = deltaClass a ->
       BaseDelta.isDocument r = Returned false ->
       exists msg, BaseDelta.compose a b wantDocument = Threw (wtf msg)
                   /\ category (wtf msg) = InternalConsistency
                   /\ category (wtf msg) <> InvalidArgument).
Proof.
  repeat split.
  - unfold BaseDelta.compose. now rewrite (Delta_check_not_instance _ _ H).
  - intros -> Hdoc. unfold BaseDelta.compose.
    destruct (is_delta_of (deltaClass a) b) eqn:Hb.
    + destruct b; simpl in Hb; try discriminate.
      apply String.eqb_eq in Hb.
      rewrite (Delta_check_same_class _ _ Hb). simpl. rewrite Hdoc. simpl.
      eexists. repeat split. intros _. eexists. reflexivity.
    + rewrite (Delta_check_not_instance _ _ Hb). simpl.
      eexists. repeat split. discriminate.
  - intros d r -> Hd -> Ha Himpl Hr Hrdoc. unfold BaseDelta.compose.
    rewrite (Delta_check_same_class _ _ Hd). simpl. rewrite Ha. simpl.
    rewrite Himpl. rewrite (Delta_check_same_class _ _ Hr). simpl.
    rewrite Hrdoc. simpl.
    eexists. repeat split. discriminate.
Qed.

(** A run of each of the three cases on the mock classes. *)
Lemma BaseDelta_compose_errors_witness :
  BaseDelta.compose (I := Mock.deltaImpl) (Mock.MockDelta []) (VStr "blort") (VBool false)
    = Threw (bad_value "MockDelta")
  /\ (exists e, BaseDelta.compose (I := Mock.deltaImpl)
                  (Mock.MockDelta [Mock.MockOp "notDocument"])
                  (VDelta (Mock.MockDelta [])) (VBool true) = Threw e
                /\ category e = InvalidArgument)
  /\ (exists msg, BaseDelta.compose (I := Mock.deltaImpl) (Mock.WrongDelta [])
                    (VDelta (Mock.WrongDelta [])) (VBool true) = Threw (wtf msg)).
Proof.
  split; [|split].
  - apply (BaseDelta_compose_errors Mock.deltaImpl (Mock.MockDelta []) (VStr "blort") (VBool false)).
    reflexivity.
  - destruct (BaseDelta_compose_errors Mock.deltaImpl
                (Mock.MockDelta [Mock.MockOp "notDocument"])
                (VDelta (Mock.MockDelta [])) (VBool true)) as (_ & H & _).
    destruct (H eq_refl eq_refl) as (e & He & Hc & _).
    exists e. split; assumption.
  - destruct (BaseDelta_compose_errors Mock.deltaImpl
                (Mock.WrongDelta []) (VDelta (Mock.WrongDelta [])) (VBool true))
      as (_ & _ & H).
    destruct (H (Mock.WrongDelta []) (Mock.WrongDelta [Mock.MockOp "notDocument"])
                eq_refl eq_refl eq_refl eq_refl eq_refl eq_refl eq_refl)
      as (msg & Hm & _).
    exists msg. exact Hm.
Defined.

(** ** DocumentSnapshot *)

Lemma RevisionNumber_check_inv (v : Value) (n : Z) :
  RevisionNumber_check v = Returned n ->
  v = VInt n /\ 0 <= n <= MAX_SAFE_INTEGER.
Proof.
  unfold RevisionNumber_check, VersionNumber.check, Number_isSafeInteger.
  destruct v; try discriminate.
  destruct (negb _ || _) eqn:E; try discriminate.
  intros [= ->]. apply orb_false_elim in E as [E1 E2].
  apply negb_false_iff, andb_prop in E1 as [_ E1].
  split; [reflexivity | lia].
Qed.

Lemma RevisionNumber_check_ok (n : Z) :
  0 <= n <= MAX_SAFE_INTEGER -> RevisionNumber_check (VInt n) = Returned n.
Proof.
  intros H. unfold RevisionNumber_check, VersionNumber.check, Number_isSafeInteger.
  replace (- MAX_SAFE_INTEGER <=? n) with true by (symmetry; apply Z.leb_le; lia).
  replace (n <=? MAX_SAFE_INTEGER) with true by (symmetry; apply Z.leb_le; lia).
  replace (n <? 0) with false by (symmetry; apply Z.ltb_ge; lia).
  reflexivity.
Qed.

Lemma Change_check_inv (cls : ClassId) (v : Value) (c : Change) :
  Change_check cls v = Returned c -> v = VChange c /\ changeClass c = cls.
Proof.
  destruct v; try discriminate. simpl.
  destruct (String.eqb_spec (changeClass c0) cls); try discriminate.
  intros [= ->]. now split.
Qed.

Lemma Snapshot_check_inv (cls : ClassId) (v : Value) (s : Snapshot) :
  Snapshot_check cls v = Returned s -> v = VSnapshot s /\ snapshotClass s = cls.
Proof.
  destruct v; try discriminate. simpl.
  destruct (String.eqb_spec (snapshotClass s0) cls); try discriminate.
  intros [= ->]. now split.
Qed.

Lemma DocumentSnapshot_new_revNum (I : FrozenDeltaImpl) (revNum contents : Value) (r : Snapshot) :
  DocumentSnapshot.new revNum contents = Returned r -> revNum = VInt (snapRevNum r).
Proof.
  unfold DocumentSnapshot.new. simpl.
  destruct (RevisionNumber_check revNum) as [n|] eqn:En; try discriminate.
  destruct (FrozenDelta_coerce contents); try discriminate.
  destruct (negb _); try discriminate.
  intros [= <-]. simpl. now apply RevisionNumber_check_inv in En.
Qed.

(** C3, as the code has it. Whenever [s.compose(c)] returns, [c] is a
    [DocumentDelta] and the result's revision number is the one of [c]; and
    the revision number of [s] plays no part: a snapshot with the same
    contents at any other revision number composes to the same outcome. *)
Theorem DocumentSnapshot_compose_revNum (I : FrozenDeltaImpl) (s : Snapshot) (v : Value) :
  (forall r : Snapshot,
     DocumentSnapshot.compose s v = Returned r ->
     exists c : Change, v = VChange c /\ snapRevNum r = revNum c)
  /\ (forall n : Z,
        DocumentSnapshot.compose (mkSnapshot (snapshotClass s) n (contents s)) v
        = DocumentSnapshot.compose s v).
Proof.
  split.
  - intros r. unfold DocumentSnapshot.compose. simpl.
    destruct (Change_check DocumentDelta.API_NAME v) as [c|] eqn:Ec; try discriminate.
    destruct (FrozenDelta_compose (contents s) (delta c)); try discriminate.
    destruct (FrozenDelta_coerce a); try discriminate.
    intros H. apply DocumentSnapshot_new_revNum in H. injection H as H.
    apply Change_check_inv in Ec as [-> _]. now exists c.
  - reflexivity.
Qed.

(** A snapshot at revision 10 and a change for revision 20: what comes back
    is at revision 20. *)
Lemma DocumentSnapshot_compose_revNum_witness :
  exists c : Change,
    VChange (mkChange "DocumentDelta" 20 (mkDelta "FrozenDelta" []) None None) = VChange c
    /\ snapRevNum (mkSnapshot "DocumentSnapshot" 20 (mkDelta "FrozenDelta" [mkOp "insert" ["x"]]))
       = revNum c.
Proof.
  destruct (DocumentSnapshot_compose_revNum Mock.frozenDeltaImpl
              (mkSnapshot "DocumentSnapshot" 10 (mkDelta "FrozenDelta" [mkOp "insert" ["x"]]))
              (VChange (mkChange "DocumentDelta" 20 (mkDelta "FrozenDelta" []) None None)))
    as [H _].
  apply (H (mkSnapshot "DocumentSnapshot" 20 (mkDelta "FrozenDelta" [mkOp "insert" ["x"]]))).
  reflexivity.
Defined.

(** C3, as the claim has it, fails: a snapshot at revision 10 composes with
    a change for revision 20, which is not 10 + 1, and the result is at
    revision 20. *)
Lemma DocumentSnapshot_compose_other_revNum :
  let s := mkSnapshot "DocumentSnapshot" 10 (mkDelta "FrozenDelta" [mkOp "insert" ["x"]]) in
  let c := mkChange "DocumentDelta" 20 (mkDelta "FrozenDelta" []) None None in
  revNum c <> snapRevNum s + 1
  /\ DocumentSnapshot.compose (I := Mock.frozenDeltaImpl) s (VChange c)
     = Returned (mkSnapshot "DocumentSnapshot" 20 (mkDelta "FrozenDelta" [mkOp "insert" ["x"]])).
Proof.
  split; [discriminate | reflexivity].
Qed.

(** C4. [diff] hands its argument, the newer snapshot and not that
    snapshot's contents, to the [diff] of the contents. With a delta library
    that throws when the argument of [diff] is not a delta, [s1.diff(v)]
    therefore throws for every [s1] and every [v], and the round trip
    [s1.compose(s1.diff(s2))] never gets to compose anything. *)
Theorem DocumentSnapshot_diff_throws (I : FrozenDeltaImpl)
    (Hdiff : forall (d : Delta) (s : Snapshot), exists e, FrozenDelta_diff d (VSnapshot s) = Threw e)
    (s1 : Snapshot) (v : Value) :
  exists e, DocumentSnapshot.diff s1 v = Threw e.
Proof.
  unfold DocumentSnapshot.diff. simpl.
  destruct (Snapshot_check DocumentSnapshot.API_NAME v) as [s2|e] eqn:Ev.
  - apply Snapshot_check_inv in Ev as [-> _].
    destruct (Hdiff (contents s1) s2) as [e ->]. now exists e.
  - now exists e.
Qed.

Lemma Mock_diff_rejects_snapshots (d : Delta) (s : Snapshot) :
  exists e, FrozenDelta_diff (FrozenDeltaImpl := Mock.frozenDeltaImpl) d (VSnapshot s) = Threw e.
Proof.
  eexists. reflexivity.
Qed.

(** The difference from the empty document at revision 0 to a document at
    revision 1 throws. *)
Lemma DocumentSnapshot_diff_throws_witness :
  exists e,
    DocumentSnapshot.diff (I := Mock.frozenDeltaImpl)
      (mkSnapshot "DocumentSnapshot" 0 (mkDelta "FrozenDelta" []))
      (VSnapshot (mkSnapshot "DocumentSnapshot" 1 (mkDelta "FrozenDelta" [mkOp "insert" ["a"]])))
    = Threw e.
Proof.
  apply (DocumentSnapshot_diff_throws Mock.frozenDeltaImpl Mock_diff_rejects_snapshots).
Defined.

(** ** BaseControl.update: the retry loop *)

Section UpdateLoop.
Context {S : Type} {I : ControlImpl S}.
Variables (baseSnapshot : Snapshot) (change : Change) (expectedSnapshot : Snapshot).

Local Abbreviation loop fuel d t n :=
  (BaseControl.update_loop fuel d t n baseSnapshot change expectedSnapshot).
Local Abbreviation attempt n :=
  (BaseControl.attempt n baseSnapshot change expectedSnapshot).
Local Abbreviation lost_races k d n :=
  (BaseControl.lost_races k d n baseSnapshot change expectedSnapshot).

(** One iteration of the loop. *)
Lemma update_loop_step (fuel : nat) (d t n : Z) (w : World S) :
  loop (Datatypes.S fuel) d t n w =
  match attempt n w with
  | (Returned VNull, w1) =>
      if t >=? BaseControl.MAX_UPDATE_TIME_MSEC
      then (Threw (aborted "Too many failed attempts in update()."), w1)
      else loop fuel (d * BaseControl.UPDATE_RETRY_GROWTH_FACTOR) (t + d) (n + 1)
                (snd (BaseControl.sleep d w1))
  | (Returned v, w1) => (Returned (Some v), w1)
  | (Threw err, w1) => (Threw err, w1)
  end.
Proof.
  unfold BaseControl.attempt. cbn [BaseControl.update_loop].
  simpl bind.
  destruct (n + 1 =? 1); simpl;
    unfold call; simpl;
    destruct (_impl_update _ _ _ _) as [[v|err] s']; try reflexivity;
    destruct v; try reflexivity;
    destruct (t >=? _); reflexivity.
Qed.

(** [k] lost races within the budget take the loop to its variables after
    [k] rounds. *)
Lemma update_loop_lost_races (k : nat) :
  forall (fuel : nat) (d t n : Z) (w wk : World S),
    lost_races k d n w = Some wk ->
    BaseControl.within_budget k d t = true ->
    loop (k + fuel) d t n w =
    loop fuel (BaseControl.delay_after k d) (BaseControl.total_after k d t)
         (n + Z.of_nat k) wk.
Proof.
  induction k as [|k IH]; intros fuel d t n w wk Hk Hb.
  - injection Hk as <-. simpl. now rewrite Z.add_0_r.
  - change (Datatypes.S k + fuel)%nat with (Datatypes.S (k + fuel)).
    rewrite update_loop_step.
    simpl in Hk, Hb. apply andb_prop in Hb as [Ht Hb].
    destruct (attempt n w) as [[v|err] w1]; try discriminate.
    destruct v; try discriminate.
    replace (t >=? BaseControl.MAX_UPDATE_TIME_MSEC) with false
      by (symmetry; apply Z.ltb_lt in Ht; rewrite Z.geb_leb; apply Z.leb_gt; lia).
    rewrite (IH _ _ _ _ _ _ Hk Hb). simpl.
    f_equal. lia.
Qed.

(** The pauses of [k] lost races. *)
Lemma delays_app (t1 t2 : list Event) :
  BaseControl.delays (t1 ++ t2) = BaseControl.delays t1 ++ BaseControl.delays t2.
Proof.
  induction t1 as [|ev t1 IH]; simpl; [reflexivity|].
  destruct ev; simpl; now rewrite IH.
Qed.

Lemma attempt_delays (n : Z) (w w1 : World S) (o : Outcome Value) :
  attempt n w = (o, w1) ->
  BaseControl.delays (trace w1) = BaseControl.delays (trace w).
Proof.
  unfold BaseControl.attempt. simpl bind.
  destruct (n + 1 =? 1); simpl; unfold call; simpl;
    destruct (_impl_update _ _ _ _) as [o' s']; intros [= _ <-]; simpl;
    rewrite !delays_app; simpl; now rewrite ?app_nil_r.
Qed.

Lemma lost_races_delays (k : nat) :
  forall (d n : Z) (w wk : World S),
    lost_races k d n w = Some wk ->
    BaseControl.delays (trace wk)
    = BaseControl.delays (trace w) ++ BaseControl.delays_from k d.
Proof.
  induction k as [|k IH]; intros d n w wk Hk.
  - injection Hk as <-. simpl. now rewrite app_nil_r.
  - simpl in Hk.
    destruct (attempt n w) as [[v|err] w1] eqn:Ea; try discriminate.
    destruct v; try discriminate.
    rewrite (IH _ _ _ _ Hk). simpl. rewrite !delays_app. simpl.
    rewrite (attempt_delays _ _ _ _ Ea).
    now rewrite app_nil_r, <- app_assoc.
Qed.

(** The loop comes to an end when the fuel outlasts the budget. *)
Lemma update_loop_total (k : nat) :
  forall (fuel : nat) (d t n : Z) (w : World S),
    (k < fuel)%nat ->
    BaseControl.MAX_UPDATE_TIME_MSEC <= BaseControl.total_after k d t ->
    fst (loop fuel d t n w) <> Returned None.
Proof.
  induction k as [|k IH]; intros fuel d t n w Hf Ht;
    (destruct fuel as [|fuel]; [lia|]); rewrite update_loop_step;
    destruct (attempt n w) as [[v|err] w1]; try discriminate;
    destruct v; try discriminate; simpl in Ht.
  - replace (t >=? BaseControl.MAX_UPDATE_TIME_MSEC) with true
      by (symmetry; rewrite Z.geb_leb; apply Z.leb_le; lia).
    discriminate.
  - destruct (t >=? _); [discriminate|].
    apply IH; [lia | assumption].
Qed.

Lemma delays_from_initial (k : nat) :
  BaseControl.delays_from k BaseControl.INITIAL_UPDATE_RETRY_MSEC
  = map BaseControl.retry_delay (seq 0 k).
Proof.
  unfold BaseControl.retry_delay.
  assert (G : forall (j : nat) (d : Z),
             BaseControl.delays_from k (d * BaseControl.UPDATE_RETRY_GROWTH_FACTOR ^ Z.of_nat j)
             = map (fun i => d * BaseControl.UPDATE_RETRY_GROWTH_FACTOR ^ Z.of_nat i) (seq j k)).
  { induction k as [|k IH]; intros j d; simpl; [reflexivity|].
    f_equal. rewrite <- IH. f_equal.
    rewrite Nat2Z.inj_succ, Z.pow_succ_r by lia. ring. }
  specialize (G 0%nat BaseControl.INITIAL_UPDATE_RETRY_MSEC).
  simpl Z.of_nat in G. rewrite Z.pow_0_r, Z.mul_1_r in G. exact G.
Qed.

End UpdateLoop.

Section Update.
Context {S : Type} {I : ControlImpl S}.

Lemma Change_check_ok (cls : ClassId) (c : Change) :
  changeClass c = cls -> Change_check cls (VChange c) = Returned c.
Proof.
  intros <-. simpl. now rewrite String.eqb_refl.
Qed.

(** A change that passes the checks, is not empty, and has a base snapshot
    it composes with, enters the loop with the initial loop variables. *)
Lemma update_reaches_loop (fuel : nat) (c : Change) (w0 w : World S) (b e : Snapshot) :
  changeClass c = control_changeClass ->
  timestamp c <> None ->
  1 <= revNum c ->
  BaseDelta.isEmpty (delta c) = false ->
  BaseControl.getSnapshot (VInt (revNum c - 1)) w0 = (Returned b, w) ->
  snapshot_compose b c = Returned e ->
  BaseControl.update fuel (VChange c) w0
  = BaseControl.update_loop fuel BaseControl.INITIAL_UPDATE_RETRY_MSEC 0 0 b c e w.
Proof.
  intros Hc Ht Hr He Hs Hx. unfold BaseControl.update.
  rewrite (Change_check_ok _ _ Hc). unfold lift at 1. simpl bind.
  destruct (timestamp c); [|congruence].
  replace (revNum c - 1 <? 0) with false by (symmetry; apply Z.ltb_ge; lia).
  rewrite He, Hs, Hx. reflexivity.
Qed.

End Update.

Lemma within_budget_initial (k : nat) :
  (k <= 5)%nat ->
  BaseControl.within_budget k BaseControl.INITIAL_UPDATE_RETRY_MSEC 0 = true.
Proof.
  intros H.
  do 6 (destruct k as [|k]; [reflexivity|]). lia.
Qed.

Lemma total_after_initial (k : nat) :
  (k <= 5)%nat ->
  (BaseControl.MAX_UPDATE_TIME_MSEC
     <=? BaseControl.total_after k BaseControl.INITIAL_UPDATE_RETRY_MSEC 0)
  = (k =? 5)%nat.
Proof.
  intros H.
  do 6 (destruct k as [|k]; [reflexivity|]). lia.
Qed.

(** With enough fuel [update()] always comes to an end, whatever it is
    given and whatever the subclass does. *)
Lemma update_total (S : Type) (I : ControlImpl S) (fuel : nat) (v : Value) (w : World S) :
  (BaseControl.enough_fuel <= fuel)%nat ->
  fst (BaseControl.update fuel v w) <> Returned None.
Proof.
  intros Hfuel. unfold BaseControl.update. unfold lift. simpl bind.
  destruct (Change_check control_changeClass v) as [c|]; [|discriminate].
  destruct (timestamp c); [|discriminate].
  destruct (revNum c - 1 <? 0); [discriminate|].
  destruct (BaseDelta.isEmpty (delta c)).
  - destruct (BaseChange.withRevNum _ _); discriminate.
  - destruct (BaseControl.getSnapshot _ w) as [[b|] w1]; [|discriminate].
    destruct (snapshot_compose b c) as [e|]; [|discriminate].
    apply (update_loop_total _ _ _ 5);
      [unfold BaseControl.enough_fuel in Hfuel; lia | vm_compute; discriminate].
Qed.

(** C1. Take an [update()] call that gets as far as the loop: the change
    passes the checks and is not empty, the base snapshot is there and
    composes with the change. Suppose the first [k] attempts, [k <= 5], each
    returned [null]. Then the controller has paused exactly [k] times, for
    50 msec times 5 to the power [i] before retry [i + 1] (50, 250, 1250,
    6250, 31250); the accumulated pause reaches the 20000 msec limit exactly
    when [k = 5]; and attempt [k + 1] decides: a value other than [null] is
    the result of [update()], an error it throws is thrown by [update()]
    with nothing done after it, and [null] when [k = 5] makes [update()]
    throw the aborted error. Six iterations always end the loop. *)
Theorem update_retries_with_backoff (S : Type) (I : ControlImpl S)
    (fuel k : nat) (c : Change) (w0 w wk : World S) (b e : Snapshot) :
  (6 <= fuel)%nat ->
  (k <= 5)%nat ->
  changeClass c = control_changeClass ->
  timestamp c <> None ->
  1 <= revNum c ->
  BaseDelta.isEmpty (delta c) = false ->
  BaseControl.getSnapshot (VInt (revNum c - 1)) w0 = (Returned b, w) ->
  snapshot_compose b c = Returned e ->
  BaseControl.lost_races k BaseControl.INITIAL_UPDATE_RETRY_MSEC 0 b c e w = Some wk ->
  BaseControl.delays (trace wk)
    = BaseControl.delays (trace w) ++ map BaseControl.retry_delay (seq 0 k)
  /\ map BaseControl.retry_delay (seq 0 5) = [50; 250; 1250; 6250; 31250]
  /\ (BaseControl.MAX_UPDATE_TIME_MSEC
        <=? BaseControl.total_after k BaseControl.INITIAL_UPDATE_RETRY_MSEC 0)
     = (k =? 5)%nat
  /\ match BaseControl.attempt (Z.of_nat k) b c e wk with
     | (Returned VNull, w') =>
         k = 5%nat ->
         BaseControl.update fuel (VChange c) w0
         = (Threw (aborted "Too many failed attempts in update()."), w')
     | (Returned v, w') =>
         BaseControl.update fuel (VChange c) w0 = (Returned (Some v), w')
     | (Threw err, w') =>
         BaseControl.update fuel (VChange c) w0 = (Threw err, w')
     end
  /\ fst (BaseControl.update fuel (VChange c) w0) <> Returned None.
Proof.
  intros Hfuel Hk Hc Ht Hr He Hs Hx Hl.
  rewrite (update_reaches_loop fuel c w0 w b e Hc Ht Hr He Hs Hx).
  split; [|split; [|split; [|split]]].
  - rewrite (lost_races_delays _ _ _ _ _ _ _ _ Hl). f_equal.
    apply delays_from_initial.
  - reflexivity.
  - now apply total_after_initial.
  - replace fuel with (k + Datatypes.S (fuel - k - 1))%nat by lia.
    rewrite (update_loop_lost_races _ _ _ _ _ _ _ _ _ _ Hl (within_budget_initial k Hk)).
    rewrite update_loop_step. simpl (0 + Z.of_nat k).
    destruct (BaseControl.attempt (Z.of_nat k) b c e wk) as [[v|err] w']; [|reflexivity].
    destruct v; try reflexivity.
    intros ->. reflexivity.
  - apply (update_loop_total _ _ _ 5); [lia | vm_compute; discriminate].
Qed.

(** A mock controller that loses every race: six attempts, the five pauses
    between them, and the aborted error. *)
Example update_always_losing :
  match BaseControl.update (I := Mock.controlImpl) 6
          (VChange (Mock.MockChange 4 [Mock.MockOp "x"] (Some 1000) None))
          (mkWorld (Mock.mkStore 3 10 []) []) with
  | (o, w) =>
      o = Threw (aborted "Too many failed attempts in update().")
      /\ BaseControl.delays (trace w) = [50; 250; 1250; 6250; 31250]
      /\ List.length (filter (fun ev => match ev with call_update _ _ _ => true | _ => false end)
                             (trace w)) = 6%nat
  end.
Proof.
  vm_compute. repeat split.
Qed.

(** Two lost races and then a correction, on the mock controller: the
    correction is the result. *)
Lemma update_retries_with_backoff_witness :
  let corr := Mock.MockChange 5 [] None None in
  let c := Mock.MockChange 4 [Mock.MockOp "x"] (Some 1000) (Some "author-1") in
  let w0 := mkWorld (Mock.mkStore 3 10 [Returned VNull; Returned VNull; Returned (VChange corr)]) [] in
  fst (BaseControl.update (I := Mock.controlImpl) 6 (VChange c) w0)
  = Returned (Some (VChange corr)).
Proof.
  intros corr c w0.
  edestruct (update_retries_with_backoff Mock.Store Mock.controlImpl 6 2 c w0)
    as (_ & _ & _ & H & _);
    [ lia | lia | reflexivity | discriminate | vm_compute; discriminate
    | reflexivity | vm_compute; reflexivity | vm_compute; reflexivity
    | vm_compute; reflexivity | ].
  cbv -[BaseControl.update] in H |- *. rewrite H. reflexivity.
Defined.

(** ** BaseControl.update: the checks and the empty change *)

(** C6. A change without a timestamp, or with a revision number below 1, is
    rejected with a bad-value error, an error of the invalid-argument
    category, and the world is left as it was: no method of the subclass
    was called, nothing was logged and there was no pause, whatever the
    fuel. *)
Theorem update_rejects_invalid_change (S : Type) (I : ControlImpl S)
    (fuel : nat) (c : Change) (w : World S) :
  timestamp c = None \/ revNum c < 1 ->
  exists expectation,
    BaseControl.update fuel (VChange c) w = (Threw (bad_value expectation), w)
    /\ category (bad_value expectation) = InvalidArgument.
Proof.
  intros H. unfold BaseControl.update. simpl.
  destruct (String.eqb (changeClass c) control_changeClass).
  - unfold lift. simpl.
    destruct (timestamp c) as [ts|] eqn:Ets.
    + destruct H as [H|H]; [discriminate|].
      replace (revNum c - 1 <? 0) with true by (symmetry; apply Z.ltb_lt; lia).
      eexists. split; reflexivity.
    + eexists. split; reflexivity.
  - eexists. split; reflexivity.
Qed.

(** A change for revision 0, and a change without a timestamp, on the mock
    controller. *)
Lemma update_rejects_invalid_change_witness :
  let w := mkWorld (Mock.mkStore 3 10 []) [] in
  (exists expectation,
     BaseControl.update (I := Mock.controlImpl) 6
       (VChange (Mock.MockChange 0 [Mock.MockOp "x"] (Some 1000) None)) w
     = (Threw (bad_value expectation), w))
  /\ (exists expectation,
     BaseControl.update (I := Mock.controlImpl) 6
       (VChange (Mock.MockChange 4 [Mock.MockOp "x"] None None)) w
     = (Threw (bad_value expectation), w)).
Proof.
  intros w. split.
  - destruct (update_rejects_invalid_change Mock.Store Mock.controlImpl 6
                (Mock.MockChange 0 [Mock.MockOp "x"] (Some 1000) None) w)
      as (x & H & _); [right; simpl; lia|].
    exists x. exact H.
  - destruct (update_rejects_invalid_change Mock.Store Mock.controlImpl 6
                (Mock.MockChange 4 [Mock.MockOp "x"] None None) w)
      as (x & H & _); [left; reflexivity|].
    exists x. exact H.
Defined.

(** C2. A change of the controller's change class with a timestamp, a
    revision number of at least 1 (a safe integer, as the numbers of
    JavaScript that count are) and an empty delta gets a correction with
    an empty delta at the revision number of the change minus one, with
    neither timestamp nor author. The world is left as it was: the current
    revision number was not asked for, no snapshot was fetched, no update
    was attempted. This holds in every world, so whether the revision of
    the change exists plays no part. *)
Theorem update_empty_change (S : Type) (I : ControlImpl S)
    (fuel : nat) (c : Change) (w : World S) :
  changeClass c = control_changeClass ->
  timestamp c <> None ->
  1 <= revNum c <= MAX_SAFE_INTEGER ->
  BaseDelta.isEmpty (delta c) = true ->
  exists correction : Change,
    BaseControl.update fuel (VChange c) w = (Returned (Some (VChange correction)), w)
    /\ BaseDelta.isEmpty (delta correction) = true
    /\ revNum correction = revNum c - 1
    /\ timestamp correction = None
    /\ authorId correction = None.
Proof.
  intros Hc Ht Hr He. unfold BaseControl.update.
  rewrite (Change_check_ok _ _ Hc). unfold lift at 1. simpl bind.
  destruct (timestamp c); [|congruence].
  replace (revNum c - 1 <? 0) with false by (symmetry; apply Z.ltb_ge; lia).
  rewrite He. unfold BaseChange.withRevNum.
  rewrite RevisionNumber_check_ok by lia. unfold lift. simpl.
  eexists. split; [reflexivity|].
  destruct (revNum c - 1 =? 0) eqn:E; simpl.
  - apply Z.eqb_eq in E. repeat split; congruence.
  - repeat split; reflexivity.
Qed.

(** An empty change for revision 40 when the current revision is 3. *)
Lemma update_empty_change_witness :
  let w := mkWorld (Mock.mkStore 3 10 []) [] in
  exists correction : Change,
    BaseControl.update (I := Mock.controlImpl) 6
      (VChange (Mock.MockChange 40 [] (Some 1000) (Some "author-1"))) w
    = (Returned (Some (VChange correction)), w)
    /\ BaseDelta.isEmpty (delta correction) = true
    /\ revNum correction = 39.
Proof.
  intros w.
  destruct (update_empty_change Mock.Store Mock.controlImpl 6
              (Mock.MockChange 40 [] (Some 1000) (Some "author-1")) w)
    as (corr & H & He & Hr & _);
    [reflexivity | discriminate | vm_compute; split; discriminate | reflexivity |].
  exists corr. repeat split; assumption.
Defined.

(** ** BaseControl.getChangeAfter and BaseControl.getSnapshot *)

Lemma RevisionNumber_maxInc_ok (n cur : Z) :
  0 <= n <= cur -> cur <= MAX_SAFE_INTEGER ->
  RevisionNumber_maxInc (VInt n) cur = Returned n.
Proof.
  intros Hn Hc.
  unfold RevisionNumber_maxInc, VersionNumber.check, TInt_check, Number_isSafeInteger.
  replace (- MAX_SAFE_INTEGER <=? n) with true by (symmetry; apply Z.leb_le; lia).
  replace (n <=? MAX_SAFE_INTEGER) with true by (symmetry; apply Z.leb_le; lia).
  replace (- MAX_SAFE_INTEGER <=? cur) with true by (symmetry; apply Z.leb_le; lia).
  replace (cur <=? MAX_SAFE_INTEGER) with true by (symmetry; apply Z.leb_le; lia).
  replace (n <? 0) with false by (symmetry; apply Z.ltb_ge; lia).
  simpl.
  replace (n >? cur) with false by (symmetry; rewrite Z.gtb_ltb; apply Z.ltb_ge; lia).
  now rewrite andb_false_r.
Qed.

Section Reads.
Context {S : Type} {I : ControlImpl S}.

Lemma currentRevNum_ok (w : World S) (cur : Z) (s1 : S) :
  _impl_currentRevNum (store w) = (Returned (VInt cur), s1) ->
  0 <= cur <= MAX_SAFE_INTEGER ->
  BaseControl.currentRevNum w = (Returned cur, mkWorld s1 (trace w ++ [call_currentRevNum])).
Proof.
  intros Hi Hc. unfold BaseControl.currentRevNum, call, lift. simpl.
  rewrite Hi. now rewrite RevisionNumber_check_ok.
Qed.

Lemma getChangeAfter_unfold (v : Value) (w w1 : World S) (cur : Z) :
  BaseControl.currentRevNum w = (Returned cur, w1) ->
  BaseControl.getChangeAfter v w =
  match RevisionNumber_maxInc v cur with
  | Threw e => (Threw e, w1)
  | Returned base =>
      match _impl_getChangeAfter base cur (store w1) with
      | (Threw e, s2) => (Threw e, mkWorld s2 (trace w1 ++ [call_getChangeAfter base cur]))
      | (Returned VNull, s2) =>
          (Threw (Errors.mk_revision_not_available v),
           mkWorld s2 (trace w1 ++ [call_getChangeAfter base cur]))
      | (Returned result, s2) =>
          (match Change_check control_changeClass result with
           | Threw e => Threw e
           | Returned c =>
               match timestamp c, authorId c with
               | None, None => Returned c
               | _, _ => Threw (bad_value "timestamp === null && authorId === null")
               end
           end, mkWorld s2 (trace w1 ++ [call_getChangeAfter base cur]))
      end
  end.
Proof.
  intros Hc. unfold BaseControl.getChangeAfter. simpl bind. rewrite Hc.
  unfold lift. destruct (RevisionNumber_maxInc v cur) as [base|e]; [|reflexivity].
  unfold call. destruct (_impl_getChangeAfter base cur (store w1)) as [[result|e] s2];
    [|reflexivity].
  destruct result; try reflexivity; simpl;
    destruct (String.eqb _ _); try reflexivity;
    destruct (timestamp c), (authorId c); reflexivity.
Qed.

Lemma getSnapshot_unfold (v : Value) (w w1 : World S) (cur : Z) :
  BaseControl.currentRevNum w = (Returned cur, w1) ->
  BaseControl.getSnapshot v w =
  match (match v with
         | VUndefined | VNull => Returned cur
         | _ => RevisionNumber_maxInc v cur
         end) with
  | Threw e => (Threw e, w1)
  | Returned revNum =>
      match _impl_getSnapshot revNum (store w1) with
      | (Threw e, s2) => (Threw e, mkWorld s2 (trace w1 ++ [call_getSnapshot revNum]))
      | (Returned VNull, s2) =>
          (Threw (Errors.mk_revision_not_available (VInt revNum)),
           mkWorld s2 (trace w1 ++ [call_getSnapshot revNum]))
      | (Returned result, s2) =>
          (Snapshot_check control_snapshotClass result,
           mkWorld s2 (trace w1 ++ [call_getSnapshot revNum]))
      end
  end.
Proof.
  intros Hc. unfold BaseControl.getSnapshot. simpl bind.
  destruct v; rewrite Hc; unfold lift, call;
    try reflexivity;
    try (destruct (_impl_getSnapshot cur (store w1)) as [[result|e] s2];
         [destruct result|]; reflexivity).
  destruct (RevisionNumber_maxInc (VInt n) cur) as [r|e]; [|reflexivity].
  destruct (_impl_getSnapshot r (store w1)) as [[result|e] s2];
    [destruct result|]; reflexivity.
Qed.

End Reads.

Lemma mk_revision_not_available_ok (n : Z) :
  0 <= n <= MAX_SAFE_INTEGER ->
  Errors.mk_revision_not_available (VInt n) = revision_not_available n.
Proof.
  intros H.
  unfold Errors.mk_revision_not_available, TInt_nonNegative, TInt_min, TInt_check,
    Number_isSafeInteger.
  replace (- MAX_SAFE_INTEGER <=? n) with true by (symmetry; apply Z.leb_le; lia).
  replace (n <=? MAX_SAFE_INTEGER) with true by (symmetry; apply Z.leb_le; lia).
  simpl. replace (n <? 0) with false by (symmetry; apply Z.ltb_ge; lia).
  reflexivity.
Qed.

(** C5. Let the current revision number be [cur]. When the subclass answers
    [null] for a base revision or for a revision that exists, both
    [getChangeAfter] and [getSnapshot] throw [revision_not_available] with
    that revision number, after exactly the call for the current revision
    number and the call of the subclass method. [getSnapshot(null)], and
    [getSnapshot()] with no argument, ask the subclass for revision [cur]
    and return its answer when it is a snapshot of the snapshot class.
    Whatever either method returns is the value the subclass returned, a
    change or a snapshot, never [null]. *)
Theorem unavailable_revision_errors (S : Type) (I : ControlImpl S)
    (w : World S) (cur : Z) (s1 : S) :
  _impl_currentRevNum (store w) = (Returned (VInt cur), s1) ->
  0 <= cur <= MAX_SAFE_INTEGER ->
  (forall (n : Z) (s2 : S),
     0 <= n <= cur ->
     _impl_getChangeAfter n cur s1 = (Returned VNull, s2) ->
     BaseControl.getChangeAfter (VInt n) w
     = (Threw (revision_not_available n),
        mkWorld s2 (trace w ++ [call_currentRevNum; call_getChangeAfter n cur]))
     /\ category (revision_not_available n) = RevisionNotAvailable)
  /\ (forall (n : Z) (s2 : S),
     0 <= n <= cur ->
     _impl_getSnapshot n s1 = (Returned VNull, s2) ->
     BaseControl.getSnapshot (VInt n) w
     = (Threw (revision_not_available n),
        mkWorld s2 (trace w ++ [call_currentRevNum; call_getSnapshot n])))
  /\ (forall (v : Value) (s2 : S),
     v = VNull \/ v = VUndefined ->
     _impl_getSnapshot cur s1 = (Returned VNull, s2) ->
     BaseControl.getSnapshot v w
     = (Threw (revision_not_available cur),
        mkWorld s2 (trace w ++ [call_currentRevNum; call_getSnapshot cur])))
  /\ (forall (v : Value) (head : Snapshot) (s2 : S),
     v = VNull \/ v = VUndefined ->
     _impl_getSnapshot cur s1 = (Returned (VSnapshot head), s2) ->
     snapshotClass head = control_snapshotClass ->
     BaseControl.getSnapshot v w
     = (Returned head,
        mkWorld s2 (trace w ++ [call_currentRevNum; call_getSnapshot cur])))
  /\ (forall (v : Value) (c : Change) (w' : World S),
     BaseControl.getChangeAfter v w = (Returned c, w') ->
     exists n : Z, _impl_getChangeAfter n cur s1 = (Returned (VChange c), store w'))
  /\ (forall (v : Value) (s : Snapshot) (w' : World S),
     BaseControl.getSnapshot v w = (Returned s, w') ->
     exists n : Z, _impl_getSnapshot n s1 = (Returned (VSnapshot s), store w')).
Proof.
  intros Hi Hc.
  pose proof (currentRevNum_ok w cur s1 Hi Hc) as Hcur.
  split; [|split; [|split; [|split; [|split]]]].
  - intros n s2 Hn Hnull. split; [|reflexivity].
    rewrite (getChangeAfter_unfold _ _ _ _ Hcur).
    rewrite RevisionNumber_maxInc_ok by lia. simpl store. rewrite Hnull.
    rewrite mk_revision_not_available_ok by lia. simpl trace.
    now rewrite <- app_assoc.
  - intros n s2 Hn Hnull.
    rewrite (getSnapshot_unfold _ _ _ _ Hcur).
    rewrite RevisionNumber_maxInc_ok by lia. simpl store. rewrite Hnull.
    rewrite mk_revision_not_available_ok by lia. simpl trace.
    now rewrite <- app_assoc.
  - intros v s2 Hv Hn.
    rewrite (getSnapshot_unfold _ _ _ _ Hcur).
    destruct Hv as [-> | ->]; simpl store; rewrite Hn;
      rewrite mk_revision_not_available_ok by lia; simpl trace;
      now rewrite <- app_assoc.
  - intros v head s2 Hv Hn Hcls.
    rewrite (getSnapshot_unfold _ _ _ _ Hcur).
    destruct Hv as [-> | ->]; simpl store; rewrite Hn; simpl;
      rewrite Hcls, String.eqb_refl, <- app_assoc; reflexivity.
  - intros v c w'. rewrite (getChangeAfter_unfold _ _ _ _ Hcur).
    destruct (RevisionNumber_maxInc v cur) as [n|]; [|discriminate].
    simpl store.
    destruct (_impl_getChangeAfter n cur s1) as [[result|] s2] eqn:E; [|discriminate].
    destruct result; try discriminate. simpl.
    destruct (String.eqb _ _); [|discriminate].
    destruct (timestamp c0), (authorId c0); try discriminate.
    intros [= -> <-]. now exists n.
  - intros v s w'. rewrite (getSnapshot_unfold _ _ _ _ Hcur).
    destruct (match v with VUndefined | VNull => _ | _ => _ end) as [n|]; [|discriminate].
    simpl store.
    destruct (_impl_getSnapshot n s1) as [[result|] s2] eqn:E; [|discriminate].
    destruct result; try discriminate. simpl.
    destruct (String.eqb _ _); [|discriminate].
    intros [= -> <-]. now exists n.
Qed.

(** A part at revision 10 that serves the last two revisions only: the
    snapshot of revision 5 and the change after revision 5 are not
    available. *)
Lemma unavailable_revision_errors_witness :
  let w := mkWorld (Mock.mkStore 10 2 []) [] in
  fst (BaseControl.getSnapshot (I := Mock.controlImpl) (VInt 5) w)
    = Threw (revision_not_available 5)
  /\ fst (BaseControl.getChangeAfter (I := Mock.controlImpl) (VInt 5) w)
    = Threw (revision_not_available 5).
Proof.
  intros w.
  destruct (unavailable_revision_errors Mock.Store Mock.controlImpl w 10 (Mock.mkStore 10 2 []))
    as (Hc & Hs & _); [reflexivity | vm_compute; split; discriminate |].
  split.
  - rewrite (Hs 5 (Mock.mkStore 10 2 [])); [reflexivity | lia | reflexivity].
  - destruct (Hc 5 (Mock.mkStore 10 2 [])) as [-> _]; [lia | reflexivity | reflexivity].
Defined.

(** ** AuthorSession *)

(** C7. Whatever arguments a caller supplies, however many, [applyDelta]
    calls the document controller with the author id of the session, which
    is the string the session was constructed with, and [caretUpdate] calls
    the caret controller with the session id of the session. No method
    that can be named across the API boundary makes a controller call with
    any other author id or session id. *)
Theorem session_supplies_identity (this : AuthorSession.t) :
  (forall args : list Value,
     AuthorSession.invoke this "applyDelta" args
     = Some (AuthorSession.docControl_applyDelta
               (AuthorSession.arg args 0) (AuthorSession.arg args 1)
               (AuthorSession._authorId this)))
  /\ (forall args args' : list Value,
     option_map AuthorSession.author_of (AuthorSession.invoke this "applyDelta" args)
     = option_map AuthorSession.author_of (AuthorSession.invoke this "applyDelta" args'))
  /\ (forall args : list Value,
     option_map AuthorSession.session_of (AuthorSession.invoke this "caretUpdate" args)
     = Some (Some (AuthorSession._sessionId this)))
  /\ (forall (method : string) (args : list Value) (a : AuthorSession.Action),
     AuthorSession.invoke this method args = Some a ->
     (forall author, AuthorSession.author_of a = Some author ->
                     author = AuthorSession._authorId this)
     /\ (forall session, AuthorSession.session_of a = Some session ->
                         session = AuthorSession._sessionId this))
  /\ (forall (fileComplex : AuthorSession.FileComplex) (sessionId authorId : Value),
     AuthorSession.new fileComplex sessionId authorId = Returned this ->
     authorId = VStr (AuthorSession._authorId this)
     /\ sessionId = VStr (AuthorSession._sessionId this)).
Proof.
  split; [|split; [|split; [|split]]].
  - reflexivity.
  - reflexivity.
  - reflexivity.
  - intros method args a. unfold AuthorSession.invoke.
    repeat (match goal with
            | |- context [if ?b then _ else _] => destruct b
            end;
            [intros [= <-]; split; intros x [= <-]; reflexivity|]).
    discriminate.
  - intros fc sessionId authorId. unfold AuthorSession.new, TString_nonempty. simpl.
    destruct sessionId; try discriminate.
    destruct (String.eqb s ""); try discriminate.
    destruct authorId; try discriminate.
    destruct (String.eqb s0 ""); try discriminate.
    intros [= <-]. split; reflexivity.
Qed.

(** A caller that passes a third argument to [applyDelta] still authors as
    the session's author. *)
Lemma session_supplies_identity_witness :
  AuthorSession.invoke
    (AuthorSession.mkSession (AuthorSession.mkFileComplex "file-1") "session-1" "author-1")
    "applyDelta" [VInt 3; VNull; VStr "author-2"]
  = Some (AuthorSession.docControl_applyDelta (VInt 3) VNull "author-1").
Proof.
  destruct (session_supplies_identity
              (AuthorSession.mkSession (AuthorSession.mkFileComplex "file-1")
                 "session-1" "author-1")) as (H & _).
  rewrite H. reflexivity.
Defined.

(** ** BaseFile *)

Section FileReads.
Context {S : Type} {I : BaseFile.FileImpl S}.

Lemma transact_keeps_lastRevNum (spec : BaseFile.TransactionSpec)
    (f f' : BaseFile.File S) (o : Outcome BaseFile.TransactionResult) :
  BaseFile.transact spec f = (o, f') ->
  BaseFile._lastRevNum f' = BaseFile._lastRevNum f.
Proof.
  unfold BaseFile.transact, BaseFile.call, BaseFile.lift. simpl.
  destruct (BaseFile._impl_transact spec (BaseFile.file_store f)) as [[r|e] s'];
    [|intros [= _ <-]; reflexivity].
  destruct r as [rv nv dv|]; [|intros [= _ <-]; reflexivity].
  simpl. destruct (TInt_nonNegative rv); [|intros [= _ <-]; reflexivity].
  destruct nv; simpl;
    try (destruct (TInt_min _ _); [|intros [= _ <-]; reflexivity]);
    destruct dv; intros [= _ <-]; reflexivity.
Qed.

Lemma TInt_min_inv (v : Value) (m n : Z) :
  TInt_min v m = Returned n -> v = VInt n /\ m <= n.
Proof.
  unfold TInt_min, TInt_check. destruct v; try discriminate. simpl.
  destruct (Number_isSafeInteger n0); try discriminate. simpl.
  destruct (n0 <? m) eqn:E; try discriminate.
  intros [= ->]. apply Z.ltb_ge in E. now split.
Qed.

(** What [transact] returns satisfies the lower bound on [newRevNum]. *)
Lemma transact_newRevNum (spec : BaseFile.TransactionSpec)
    (f f' : BaseFile.File S) (r : BaseFile.TransactionResult) (n : Z) :
  BaseFile.transact spec f = (Returned r, f') ->
  BaseFile.result_newRevNum r = Some n ->
  0 <= BaseFile.result_revNum r /\ BaseFile.result_revNum r + 1 <= n.
Proof.
  unfold BaseFile.transact, BaseFile.call, BaseFile.lift. simpl.
  destruct (BaseFile._impl_transact spec (BaseFile.file_store f)) as [[ir|e] s'];
    [|discriminate].
  destruct ir as [rv nv dv|]; [|discriminate].
  simpl. destruct (TInt_nonNegative rv) as [rn|] eqn:Er; [|discriminate].
  apply TInt_min_inv in Er as [_ Er].
  destruct nv; simpl;
    try (destruct (TInt_min _ (rn + 1)) as [nn|] eqn:En; [|discriminate];
         apply TInt_min_inv in En as [_ En]);
    destruct dv; try discriminate; intros [= <- _]; simpl;
    intros [= <-]; split; assumption.
Qed.

(** A [revNum()] that goes on with the number [n] and succeeds reports [n],
    which is at least the recorded number, and records it; one that fails
    leaves the record alone. *)
Lemma revNum_resume_records (n : Z) (f f' : BaseFile.File S) (o : Outcome Z) :
  BaseFile.revNum_resume n f = (o, f') ->
  match o with
  | Returned m => m = n /\ BaseFile._lastRevNum f <= m /\ BaseFile._lastRevNum f' = m
  | Threw _ => BaseFile._lastRevNum f' = BaseFile._lastRevNum f
  end.
Proof.
  unfold BaseFile.revNum_resume, BaseFile.get_lastRevNum, BaseFile.lift,
    BaseFile.set_lastRevNum. simpl bind.
  destruct (TInt_min (VInt n) (BaseFile._lastRevNum f)) as [m|e] eqn:Em.
  - apply TInt_min_inv in Em as [[= <-] Em].
    intros [= <- <-]. simpl. repeat split. exact Em.
  - intros [= <- <-]. reflexivity.
Qed.

Lemma revNum_records (f f' : BaseFile.File S) (o : Outcome Z) :
  BaseFile.revNum f = (o, f') ->
  match o with
  | Returned n => BaseFile._lastRevNum f <= n /\ BaseFile._lastRevNum f' = n
  | Threw _ => BaseFile._lastRevNum f' = BaseFile._lastRevNum f
  end.
Proof.
  unfold BaseFile.revNum. simpl bind.
  destruct (BaseFile.transact BaseFile.empty_spec f) as [[r|e] f1] eqn:Et.
  - apply transact_keeps_lastRevNum in Et. intros Hr.
    apply revNum_resume_records in Hr.
    destruct o as [m|e]; [destruct Hr as (_ & Hle & Hx); split; [lia | exact Hx] | lia].
  - apply transact_keeps_lastRevNum in Et. intros [= <- <-]. exact Et.
Qed.

(** One more reply of [revNum()] in front of replies that keep the bounds. *)
Lemma reported_cons (o : Outcome Z) (f fx f2 : BaseFile.File S) (rs : list BaseFile.Reply) :
  match o with
  | Returned n => BaseFile._lastRevNum f <= n /\ BaseFile._lastRevNum fx = n
  | Threw _ => BaseFile._lastRevNum fx = BaseFile._lastRevNum f
  end ->
  BaseFile._lastRevNum fx <= BaseFile._lastRevNum f2 ->
  Forall (fun n => BaseFile._lastRevNum fx <= n <= BaseFile._lastRevNum f2)
         (BaseFile.reported rs) ->
  StronglySorted Z.le (BaseFile.reported rs) ->
  BaseFile._lastRevNum f <= BaseFile._lastRevNum f2
  /\ Forall (fun n => BaseFile._lastRevNum f <= n <= BaseFile._lastRevNum f2)
            (BaseFile.reported (BaseFile.revNum_reply o :: rs))
  /\ StronglySorted Z.le (BaseFile.reported (BaseFile.revNum_reply o :: rs)).
Proof.
  intros Ho Hle Hall Hsorted.
  destruct o as [n|e]; simpl.
  - destruct Ho as [Hn Hx]. rewrite Hx in *.
    repeat split; [lia | | ].
    + constructor; [lia|].
      eapply Forall_impl; [|exact Hall]. simpl. intros a Ha. lia.
    + constructor; [exact Hsorted|].
      eapply Forall_impl; [|exact Hall]. simpl. intros a Ha. lia.
  - rewrite Ho in *. repeat split; assumption.
Qed.

(** Without [create()], the recorded number only grows, and every reported
    number lies between the record before and the record after. *)
Lemma run_reported_bounds (calls : list BaseFile.Call) :
  forall (f f' : BaseFile.File S) (replies : list BaseFile.Reply),
    forallb (fun c => negb (BaseFile.is_create c)) calls = true ->
    BaseFile.run calls f = (replies, f') ->
    BaseFile._lastRevNum f <= BaseFile._lastRevNum f'
    /\ Forall (fun n => BaseFile._lastRevNum f <= n <= BaseFile._lastRevNum f')
              (BaseFile.reported replies)
    /\ StronglySorted Z.le (BaseFile.reported replies).
Proof.
  induction calls as [|c calls IH]; intros f f' replies Hnc Hrun.
  - injection Hrun as <- <-. simpl. repeat split; [lia | constructor | constructor].
  - simpl in Hnc. apply andb_prop in Hnc as [Hc Hnc].
    simpl in Hrun.
    destruct (BaseFile.step c f) as [r f1] eqn:Es.
    destruct (BaseFile.run calls f1) as [rs f2] eqn:Er.
    injection Hrun as <- <-.
    destruct (IH _ _ _ Hnc Er) as (Hle & Hall & Hsorted).
    destruct c; simpl in Hc; try discriminate; simpl in Es.
    + destruct (BaseFile.transact spec f) as [o fx] eqn:Et.
      injection Es as <- <-. apply transact_keeps_lastRevNum in Et.
      simpl. rewrite <- Et. repeat split; assumption.
    + destruct (BaseFile.revNum f) as [o fx] eqn:Et.
      injection Es as <- <-. apply revNum_records in Et.
      now apply (reported_cons o f fx f2 rs).
    + destruct (BaseFile.revNum_resume n f) as [o fx] eqn:Et.
      injection Es as <- <-. apply revNum_resume_records in Et.
      apply (reported_cons o f fx f2 rs); [|assumption..].
      destruct o as [m|e]; [destruct Et as (_ & Hm & Hx); now split | exact Et].
Qed.

End FileReads.

(** C9, as the code has it. On one file object, as long as [create()] is not
    called, the revision numbers that successful [revNum()] calls report, in
    the order in which the calls return, never go down, whatever
    transactions are made in between and however the calls overlap; and
    whenever [transact] returns a result with [newRevNum], that number is at
    least [revNum + 1]. *)
Theorem revNum_reads_never_decrease (S : Type) (I : BaseFile.FileImpl S)
    (calls : list BaseFile.Call) (f : BaseFile.File S) :
  forallb (fun c => negb (BaseFile.is_create c)) calls = true ->
  StronglySorted Z.le (BaseFile.reported (fst (BaseFile.run calls f)))
  /\ (forall (spec : BaseFile.TransactionSpec) (f1 f2 : BaseFile.File S)
             (r : BaseFile.TransactionResult) (n : Z),
        BaseFile.transact spec f1 = (Returned r, f2) ->
        BaseFile.result_newRevNum r = Some n ->
        BaseFile.result_revNum r + 1 <= n).
Proof.
  intros Hnc. split.
  - destruct (BaseFile.run calls f) as [replies f'] eqn:Er.
    now destruct (run_reported_bounds calls f f' replies Hnc Er) as (_ & _ & H).
  - intros spec f1 f2 r n Ht Hn.
    now destruct (transact_newRevNum spec f1 f2 r n Ht Hn).
Qed.

(** Two writes on a new file, with a read before and a read after, and a
    late read that had seen revision 1 and is turned down. *)
Lemma revNum_reads_never_decrease_witness :
  StronglySorted Z.le
    (BaseFile.reported
       (fst (BaseFile.run (I := Mock.fileImpl)
               [BaseFile.do_revNum;
                BaseFile.do_transact (I := Mock.fileImpl) 1%nat;
                BaseFile.do_transact (I := Mock.fileImpl) 1%nat;
                BaseFile.do_revNum;
                BaseFile.do_revNum_resume 1]
               (BaseFile.new 0)))).
Proof.
  apply (revNum_reads_never_decrease Z Mock.fileImpl).
  reflexivity.
Defined.

(** C9, as the claim has it, fails in three ways. A file at revision 5
    reports 5, is created anew, and then reports 0. Without any [create()],
    a file at revision 4 reports 4 twice and, after one transaction of five
    writes whose result has [revNum] 4 and [newRevNum] 9, reports 9: the
    numbers neither grow strictly nor come without gaps. And a transaction
    with a write, on a file that answers [null] for [newRevNum], returns a
    result without [newRevNum] although the file has moved on to revision
    5. *)
Lemma revNum_resets_repeats_skips_unreported :
  (BaseFile.reported
     (fst (BaseFile.run (I := Mock.fileImpl)
             [BaseFile.do_revNum; BaseFile.do_create; BaseFile.do_revNum]
             (BaseFile.new 5)))
   = [5; 0]
   /\ ~ StronglySorted Z.le
        (BaseFile.reported
           (fst (BaseFile.run (I := Mock.fileImpl)
                   [BaseFile.do_revNum; BaseFile.do_create; BaseFile.do_revNum]
                   (BaseFile.new 5)))))
  /\ (fst (BaseFile.run (I := MockFiles.batchFileImpl)
             [BaseFile.do_revNum; BaseFile.do_revNum;
              BaseFile.do_transact (I := MockFiles.batchFileImpl) 5%nat;
              BaseFile.do_revNum]
             (BaseFile.new 4))
      = [BaseFile.revNum_reply (Returned 4);
         BaseFile.revNum_reply (Returned 4);
         BaseFile.transact_reply (Returned (BaseFile.mkResult 4 (Some 9) None));
         BaseFile.revNum_reply (Returned 9)]
      /\ ~ StronglySorted Z.lt
           (BaseFile.reported
              (fst (BaseFile.run (I := MockFiles.batchFileImpl)
                      [BaseFile.do_revNum; BaseFile.do_revNum;
                       BaseFile.do_transact (I := MockFiles.batchFileImpl) 5%nat;
                       BaseFile.do_revNum]
                      (BaseFile.new 4)))))
  /\ BaseFile.transact (I := MockFiles.quietFileImpl) 1%nat (BaseFile.new 4)
     = (Returned (BaseFile.mkResult 4 None None), BaseFile.mkFile 5 (-1)).
Proof.
  split; [split|split; [split|]].
  - reflexivity.
  - change (~ StronglySorted Z.le [5; 0]).
    intros H. inversion H as [|a l _ Hall]. subst.
    inversion Hall as [|x l' Hle _]. subst. lia.
  - reflexivity.
  - change (~ StronglySorted Z.lt [4; 4; 9]).
    intros H. inversion H as [|a l _ Hall]. subst.
    inversion Hall as [|x l' Hlt _]. subst. lia.
  - reflexivity.
Qed.

(** * Further properties *)

#[local] Arguments VersionNumber.check : simpl never.
#[local] Arguments TInt_min : simpl never.
#[local] Arguments TInt_nonNegative : simpl never.

(** ** VersionNumber *)

Lemma Number_isSafeInteger_iff (n : Z) :
  Number_isSafeInteger n = true <-> - MAX_SAFE_INTEGER <= n <= MAX_SAFE_INTEGER.
Proof.
  unfold Number_isSafeInteger. rewrite andb_true_iff, !Z.leb_le. reflexivity.
Qed.

Lemma TInt_check_iff (v : Value) (n : Z) :
  TInt_check v = Returned n <-> v = VInt n /\ Number_isSafeInteger n = true.
Proof.
  unfold TInt_check. split.
  - destruct v; try discriminate.
    destruct (Number_isSafeInteger n0) eqn:E; [|discriminate].
    intros [= <-]. now split.
  - intros [-> ->]. reflexivity.
Qed.

Lemma VersionNumber_check_unbounded (v : Value) (n : Z) :
  VersionNumber.check v VUndefined = Returned n
  <-> v = VInt n /\ 0 <= n <= MAX_SAFE_INTEGER.
Proof.
  unfold VersionNumber.check. split.
  - destruct v; try discriminate.
    destruct (negb (Number_isSafeInteger n0) || (n0 <? 0)) eqn:E; [discriminate|].
    intros [= <-]. apply orb_false_elim in E as [E1 E2].
    apply negb_false_iff, Number_isSafeInteger_iff in E1. apply Z.ltb_ge in E2.
    split; [reflexivity | lia].
  - intros [-> H].
    replace (Number_isSafeInteger n) with true
      by (symmetry; apply Number_isSafeInteger_iff; lia).
    replace (n <? 0) with false by (symmetry; apply Z.ltb_ge; lia).
    reflexivity.
Qed.

(** X1. [VersionNumber.check(value, max)] returns [n] exactly when [value]
    is the number [n], a non-negative safe integer, and either no [max] is
    given, or [max] is an [Int] that is 0, or [max] is an [Int] with
    [n <= max]. The bound is not applied when [max] is 0: the test of the
    bound goes through the truth value of [max] itself. *)
Theorem VersionNumber_check_accepts (value max : Value) (n : Z) :
  VersionNumber.check value max = Returned n
  <-> value = VInt n
      /\ 0 <= n <= MAX_SAFE_INTEGER
      /\ (max = VUndefined
          \/ exists m : Z, max = VInt m /\ Number_isSafeInteger m = true
                           /\ (m = 0 \/ n <= m)).
Proof.
  destruct (match max with VUndefined => true | _ => false end) eqn:Emax.
  - destruct max; try discriminate.
    rewrite VersionNumber_check_unbounded. split.
    + intros [-> H]. repeat split; try lia. now left.
    + intros (-> & H & _). now split.
  - split.
    + unfold VersionNumber.check.
      destruct value; try discriminate.
      destruct (negb (Number_isSafeInteger n0) || (n0 <? 0)) eqn:E; [discriminate|].
      apply orb_false_elim in E as [E1 E2].
      apply negb_false_iff, Number_isSafeInteger_iff in E1. apply Z.ltb_ge in E2.
      destruct max; try discriminate; simpl.
      destruct (Number_isSafeInteger n1) eqn:Es; [|discriminate]. simpl.
      destruct (negb (n1 =? 0) && (n0 >? n1)) eqn:Eb; [discriminate|].
      intros [= <-]. split; [reflexivity|]. split; [lia|].
      right. exists n1. split; [reflexivity|]. split; [exact Es|].
      apply andb_false_iff in Eb as [Eb|Eb].
      * apply negb_false_iff, Z.eqb_eq in Eb. now left.
      * rewrite Z.gtb_ltb in Eb. apply Z.ltb_ge in Eb. now right.
    + intros (-> & Hn & [-> | (m & -> & Hm & Hb)]); [discriminate|].
      unfold VersionNumber.check.
      replace (Number_isSafeInteger n) with true
        by (symmetry; apply Number_isSafeInteger_iff; lia).
      replace (n <? 0) with false by (symmetry; apply Z.ltb_ge; lia).
      simpl. rewrite Hm. simpl.
      replace (negb (m =? 0) && (n >? m)) with false; [reflexivity|].
      symmetry. apply andb_false_iff. destruct Hb as [-> | Hb].
      * now left.
      * right. rewrite Z.gtb_ltb. apply Z.ltb_ge. exact Hb.
Qed.

(** Version 5 passes a check against the maximum 0, and fails one against
    the maximum 3. *)
Lemma VersionNumber_check_accepts_witness :
  VersionNumber.check (VInt 5) (VInt 0) = Returned 5
  /\ VersionNumber.check (VInt 5) (VInt 3) <> Returned 5.
Proof.
  split.
  - apply (proj2 (VersionNumber_check_accepts (VInt 5) (VInt 0) 5)).
    split; [reflexivity|]. split; [vm_compute; split; discriminate|].
    right. exists 0. split; [reflexivity|]. split; [reflexivity|]. now left.
  - intros H. apply (proj1 (VersionNumber_check_accepts (VInt 5) (VInt 3) 5)) in H.
    destruct H as (_ & _ & [H | (m & H1 & _ & [H | H])]).
    + discriminate.
    + injection H1 as <-. discriminate.
    + injection H1 as <-. lia.
Defined.



(** X3. [VersionNumber.orNull] returns [null] for [null] and the number for
    a version number; everything else is turned down with the same error,
    which names the type as [VersionNumber|null]. *)
Theorem VersionNumber_orNull_accepts (value : Value) :
  match VersionNumber.orNull value with
  | Returned None => value = VNull
  | Returned (Some n) => value = VInt n /\ 0 <= n <= MAX_SAFE_INTEGER
  | Threw e =>
      e = bad_value "VersionNumber|null"
      /\ value <> VNull
      /\ (forall n, value = VInt n -> ~ 0 <= n <= MAX_SAFE_INTEGER)
  end.
Proof.
  unfold VersionNumber.orNull.
  destruct value;
    try (simpl; split; [reflexivity | split; [discriminate | intros k H; discriminate H]]);
    try reflexivity.
  destruct (VersionNumber.check (VInt n) VUndefined) as [m|] eqn:E; simpl.
  - apply VersionNumber_check_unbounded in E as [[= <-] E]. now split.
  - split; [reflexivity|]. split; [discriminate|].
    intros k [= <-] Hk.
    now rewrite (proj2 (VersionNumber_check_unbounded (VInt n) n) (conj eq_refl Hk)) in E.
Qed.

(** X4. [VersionNumber.rangeInc(value, minInc, maxInc)] returns [n] exactly
    when [value] is the number [n], a non-negative safe integer within the
    range, so a negative [minInc] lets no negative number through; every
    failure is the same error, which spells out the range. *)
Theorem VersionNumber_rangeInc_accepts (value : Value) (minInc maxInc : Z) :
  (forall n : Z,
     VersionNumber.rangeInc value minInc maxInc = Returned n
     <-> value = VInt n /\ 0 <= n <= MAX_SAFE_INTEGER /\ minInc <= n <= maxInc)
  /\ (forall e : Error,
     VersionNumber.rangeInc value minInc maxInc = Threw e ->
     e = bad_value (Number_toString minInc ++ " <= value <= " ++ Number_toString maxInc)).
Proof.
  unfold VersionNumber.rangeInc, TInt_rangeInc. split.
  - intros n. split.
    + simpl bind.
      destruct (TInt_check value) as [m|] eqn:Ec; [|discriminate].
      apply TInt_check_iff in Ec as [-> Es].
      destruct ((m <? minInc) || (m >? maxInc)) eqn:Er; [discriminate|].
      destruct (VersionNumber.check (VInt m) VUndefined) as [k|] eqn:Ek; [|discriminate].
      apply VersionNumber_check_unbounded in Ek as [[= <-] Ek].
      intros [= <-]. apply orb_false_elim in Er as [E1 E2].
      apply Z.ltb_ge in E1. rewrite Z.gtb_ltb in E2. apply Z.ltb_ge in E2.
      repeat split; lia.
    + intros (-> & Hn & Hr). simpl.
      replace (Number_isSafeInteger n) with true
        by (symmetry; apply Number_isSafeInteger_iff; lia).
      simpl.
      replace (n <? minInc) with false by (symmetry; apply Z.ltb_ge; lia).
      replace (n >? maxInc) with false
        by (symmetry; rewrite Z.gtb_ltb; apply Z.ltb_ge; lia).
      simpl.
      now rewrite (proj2 (VersionNumber_check_unbounded (VInt n) n) (conj eq_refl Hn)).
  - intros e.
    destruct (bind _ _); [discriminate|]. now intros [= <-].
Qed.

(** Between -5 and 10, the number 3 is let through. *)
Lemma VersionNumber_rangeInc_accepts_witness :
  VersionNumber.rangeInc (VInt 3) (-5) 10 = Returned 3.
Proof.
  destruct (VersionNumber_rangeInc_accepts (VInt 3) (-5) 10) as [H _].
  apply H. repeat split; vm_compute; discriminate.
Defined.

(** ** Paths *)

Lemma Z_to_int_proper (n : Z) :
  Z.to_int n <> Decimal.Pos Decimal.Nil /\ Z.to_int n <> Decimal.Neg Decimal.Nil.
Proof.
  destruct n; simpl; split; try discriminate;
    intros [= H]; now apply DecimalPos.Unsigned.to_uint_nonnil in H.
Qed.

(** Different integers are written differently. *)
Lemma Number_toString_inj (a b : Z) :
  Number_toString a = Number_toString b -> a = b.
Proof.
  unfold Number_toString. intros H.
  apply DecimalZ.to_int_inj.
  destruct (Z_to_int_proper a) as [Ha1 Ha2], (Z_to_int_proper b) as [Hb1 Hb2].
  pose proof (NilZero.isi _ Ha1 Ha2) as Ia.
  pose proof (NilZero.isi _ Hb1 Hb2) as Ib.
  rewrite H in Ia. rewrite Ia in Ib. now injection Ib.
Qed.

(** X5. [Paths.forDocumentChange] gives a path for the non-negative safe
    integers only; the paths of two different revision numbers differ, and
    none of them is the path of the format version or the path of the
    revision number. *)
Theorem Paths_forDocumentChange_distinct (revNum : Value) (path : string) :
  Paths.forDocumentChange revNum = Returned path ->
  (exists n : Z, revNum = VInt n /\ 0 <= n <= MAX_SAFE_INTEGER
                 /\ path = ("/change/" ++ Number_toString n)%string)
  /\ path <> Paths.FORMAT_VERSION
  /\ path <> Paths.REVISION_NUMBER
  /\ (forall other : Value,
        Paths.forDocumentChange other = Returned path -> other = revNum).
Proof.
  unfold Paths.forDocumentChange. simpl bind.
  destruct (RevisionNumber_check revNum) as [n|] eqn:En; [|discriminate].
  apply RevisionNumber_check_inv in En as [-> Hn].
  intros [= <-]. split; [|split; [|split]].
  - now exists n.
  - discriminate.
  - discriminate.
  - intros other.
    destruct (RevisionNumber_check other) as [m|] eqn:Em; [|discriminate].
    apply RevisionNumber_check_inv in Em as [-> Hm].
    simpl. intros [= H]. apply Number_toString_inj in H. now subst.
Qed.

(** The change that makes revision 12 is stored at [/change/12]. *)
Lemma Paths_forDocumentChange_distinct_witness :
  "/change/12"%string <> Paths.FORMAT_VERSION
  /\ "/change/12"%string <> Paths.REVISION_NUMBER.
Proof.
  destruct (Paths_forDocumentChange_distinct (VInt 12) "/change/12" eq_refl)
    as (_ & H1 & H2 & _).
  split; assumption.
Defined.

(** ** BaseControl: what the subclass is asked, and what comes back *)

Section ControlTraces.
Context {S : Type} {I : ControlImpl S}.

(** What [currentRevNum()] does to the world: one call, and a revision
    number when it returns. *)
Lemma currentRevNum_trace (w : World S) :
  trace (snd (BaseControl.currentRevNum w)) = trace w ++ [call_currentRevNum]
  /\ forall cur : Z,
       fst (BaseControl.currentRevNum w) = Returned cur ->
       0 <= cur <= MAX_SAFE_INTEGER
       /\ fst (_impl_currentRevNum (store w)) = Returned (VInt cur).
Proof.
  unfold BaseControl.currentRevNum, call, lift. simpl.
  destruct (_impl_currentRevNum (store w)) as [[v|e] s1]; simpl.
  - destruct (RevisionNumber_check v) as [n|] eqn:En; simpl.
    + split; [reflexivity|]. intros cur [= <-].
      apply RevisionNumber_check_inv in En as [-> Hn]. now split.
    + split; [reflexivity | discriminate].
  - split; [reflexivity | discriminate].
Qed.

Lemma currentRevNum_cases (w : World S) :
  (exists (cur : Z) (w1 : World S),
     BaseControl.currentRevNum w = (Returned cur, w1)
     /\ trace w1 = trace w ++ [call_currentRevNum]
     /\ 0 <= cur <= MAX_SAFE_INTEGER
     /\ fst (_impl_currentRevNum (store w)) = Returned (VInt cur))
  \/ (exists (e : Error) (w1 : World S),
     BaseControl.currentRevNum w = (Threw e, w1)
     /\ trace w1 = trace w ++ [call_currentRevNum]).
Proof.
  destruct (currentRevNum_trace w) as [Ht Hc].
  destruct (BaseControl.currentRevNum w) as [[cur|e] w1]; simpl in *.
  - left. exists cur, w1. destruct (Hc cur eq_refl) as [Hr Hi].
    split; [reflexivity|]. split; [exact Ht|]. split; assumption.
  - right. now exists e, w1.
Qed.

Lemma getSnapshot_fails_early (v : Value) (w w1 : World S) (e : Error) :
  BaseControl.currentRevNum w = (Threw e, w1) ->
  BaseControl.getSnapshot v w = (Threw e, w1).
Proof.
  intros H. unfold BaseControl.getSnapshot. simpl bind.
  destruct v; now rewrite H.
Qed.

Lemma getChangeAfter_fails_early (v : Value) (w w1 : World S) (e : Error) :
  BaseControl.currentRevNum w = (Threw e, w1) ->
  BaseControl.getChangeAfter v w = (Threw e, w1).
Proof.
  intros H. unfold BaseControl.getChangeAfter. simpl bind. now rewrite H.
Qed.

(** The calls of [getSnapshot]: the one for the current revision number
    and then at most one of [_impl_getSnapshot], for the current revision
    number or for what the check of the requested one returned. *)
Lemma getSnapshot_calls (v : Value) (w : World S) :
  trace (snd (BaseControl.getSnapshot v w)) = trace w ++ [call_currentRevNum]
  \/ exists cur n : Z,
       fst (_impl_currentRevNum (store w)) = Returned (VInt cur)
       /\ 0 <= cur <= MAX_SAFE_INTEGER
       /\ match v with
          | VUndefined | VNull => n = cur
          | _ => RevisionNumber_maxInc v cur = Returned n
          end
       /\ trace (snd (BaseControl.getSnapshot v w))
          = trace w ++ [call_currentRevNum; call_getSnapshot n].
Proof.
  destruct (currentRevNum_cases w) as [(cur & w1 & Hc & Ht & Hr & Hi) | (e & w1 & Hc & Ht)].
  - rewrite (getSnapshot_unfold v w w1 cur Hc).
    destruct (match v with VUndefined | VNull => _ | _ => _ end) as [n|] eqn:En.
    + right. exists cur, n. split; [exact Hi|]. split; [exact Hr|]. split.
      * destruct v; first [exact En | now injection En as <-].
      * destruct (_impl_getSnapshot n (store w1)) as [[r|] s2]; [destruct r|];
          simpl; rewrite Ht, <- app_assoc; reflexivity.
    + left. exact Ht.
  - left. now rewrite (getSnapshot_fails_early v w w1 e Hc).
Qed.

Lemma getChangeAfter_calls (v : Value) (w : World S) :
  trace (snd (BaseControl.getChangeAfter v w)) = trace w ++ [call_currentRevNum]
  \/ exists cur n : Z,
       fst (_impl_currentRevNum (store w)) = Returned (VInt cur)
       /\ 0 <= cur <= MAX_SAFE_INTEGER
       /\ RevisionNumber_maxInc v cur = Returned n
       /\ trace (snd (BaseControl.getChangeAfter v w))
          = trace w ++ [call_currentRevNum; call_getChangeAfter n cur].
Proof.
  destruct (currentRevNum_cases w) as [(cur & w1 & Hc & Ht & Hr & Hi) | (e & w1 & Hc & Ht)].
  - rewrite (getChangeAfter_unfold v w w1 cur Hc).
    destruct (RevisionNumber_maxInc v cur) as [n|] eqn:En.
    + right. exists cur, n. split; [exact Hi|]. split; [exact Hr|].
      split; [exact En|].
      destruct (_impl_getChangeAfter n cur (store w1)) as [[r|] s2]; [destruct r|];
        simpl; rewrite Ht, <- app_assoc; reflexivity.
    + left. exact Ht.
  - left. now rewrite (getChangeAfter_fails_early v w w1 e Hc).
Qed.

(** When the check of the requested revision against the current one
    throws, the error is the method's and the subclass is not asked. *)
Lemma reads_stop_at_check (v : Value) (w w1 : World S) (cur : Z) (e : Error) :
  BaseControl.currentRevNum w = (Returned cur, w1) ->
  RevisionNumber_maxInc v cur = Threw e ->
  BaseControl.getChangeAfter v w = (Threw e, w1)
  /\ (v <> VNull -> v <> VUndefined -> BaseControl.getSnapshot v w = (Threw e, w1)).
Proof.
  intros Hc He. split.
  - now rewrite (getChangeAfter_unfold v w w1 cur Hc), He.
  - intros Hn Hu. rewrite (getSnapshot_unfold v w w1 cur Hc).
    destruct v; try congruence; now rewrite He.
Qed.

End ControlTraces.

(** X6. What the read methods ask of the subclass, whatever they are asked
    for and in whatever world. [getSnapshot] calls [_impl_currentRevNum]
    once and then [_impl_getSnapshot] at most once, and [getChangeAfter]
    calls [_impl_currentRevNum] once and then [_impl_getChangeAfter] at most
    once, and neither calls anything else. The second call is made only
    when the first has reported a revision number, and then for that
    revision when [getSnapshot] is given [null] or nothing, and otherwise
    only when [RevisionNumber.maxInc] has returned for the request and the
    reported revision, with what it returned; [_impl_getChangeAfter] gets
    the reported revision as its second argument. When
    [RevisionNumber.maxInc] throws, its error is the method's error and the
    world is as [currentRevNum()] left it. *)
Theorem subclass_asked_once_after_check (S : Type) (I : ControlImpl S)
    (v : Value) (w : World S) :
  (trace (snd (BaseControl.getSnapshot v w)) = trace w ++ [call_currentRevNum]
   \/ exists cur n : Z,
        fst (_impl_currentRevNum (store w)) = Returned (VInt cur)
        /\ 0 <= cur <= MAX_SAFE_INTEGER
        /\ match v with
           | VUndefined | VNull => n = cur
           | _ => RevisionNumber_maxInc v cur = Returned n
           end
        /\ trace (snd (BaseControl.getSnapshot v w))
           = trace w ++ [call_currentRevNum; call_getSnapshot n])
  /\ (trace (snd (BaseControl.getChangeAfter v w)) = trace w ++ [call_currentRevNum]
   \/ exists cur n : Z,
        fst (_impl_currentRevNum (store w)) = Returned (VInt cur)
        /\ 0 <= cur <= MAX_SAFE_INTEGER
        /\ RevisionNumber_maxInc v cur = Returned n
        /\ trace (snd (BaseControl.getChangeAfter v w))
           = trace w ++ [call_currentRevNum; call_getChangeAfter n cur])
  /\ (forall (cur : Z) (w1 : World S) (e : Error),
        BaseControl.currentRevNum w = (Returned cur, w1) ->
        RevisionNumber_maxInc v cur = Threw e ->
        trace w1 = trace w ++ [call_currentRevNum]
        /\ BaseControl.getChangeAfter v w = (Threw e, w1)
        /\ (v <> VNull -> v <> VUndefined ->
            BaseControl.getSnapshot v w = (Threw e, w1))).
Proof.
  split; [apply getSnapshot_calls|]. split; [apply getChangeAfter_calls|].
  intros cur w1 e Hc He.
  destruct (reads_stop_at_check v w w1 cur e Hc He) as [H1 H2].
  split; [|split; assumption].
  destruct (currentRevNum_trace w) as [Ht _]. now rewrite Hc in Ht.
Qed.

(** X7. What the read methods let through. A change that [getChangeAfter]
    returns is an instance of the controller's change class with neither
    timestamp nor author, and a snapshot that [getSnapshot] returns is an
    instance of its snapshot class. When the subclass answers
    [_impl_getChangeAfter] with a change that has a timestamp or an author,
    or with a value that is neither [null] nor a change of the class,
    [getChangeAfter] throws a bad-value error. *)
Theorem read_results_are_checked (S : Type) (I : ControlImpl S)
    (v : Value) (w : World S) :
  (forall (c : Change) (w' : World S),
     BaseControl.getChangeAfter v w = (Returned c, w') ->
     changeClass c = control_changeClass
     /\ timestamp c = None /\ authorId c = None)
  /\ (forall (s : Snapshot) (w' : World S),
     BaseControl.getSnapshot v w = (Returned s, w') ->
     snapshotClass s = control_snapshotClass)
  /\ (forall (cur n : Z) (w1 : World S) (r : Value) (s2 : S),
     BaseControl.currentRevNum w = (Returned cur, w1) ->
     RevisionNumber_maxInc v cur = Returned n ->
     _impl_getChangeAfter n cur (store w1) = (Returned r, s2) ->
     r <> VNull ->
     (forall c, r = VChange c ->
                changeClass c <> control_changeClass
                \/ timestamp c <> None \/ authorId c <> None) ->
     exists expectation,
       fst (BaseControl.getChangeAfter v w) = Threw (bad_value expectation)).
Proof.
  split; [|split].
  - intros c w'.
    destruct (currentRevNum_cases w) as [(cur & w1 & Hc & _) | (e & w1 & Hc & _)].
    + rewrite (getChangeAfter_unfold v w w1 cur Hc).
      destruct (RevisionNumber_maxInc v cur) as [n|]; [|discriminate].
      destruct (_impl_getChangeAfter n cur (store w1)) as [[r|] s2]; [|discriminate].
      destruct r; try discriminate.
      destruct (Change_check control_changeClass (VChange c0)) as [c1|] eqn:Ec;
        [|discriminate].
      apply Change_check_inv in Ec as [[= <-] Ecls].
      destruct (timestamp c0) eqn:Et, (authorId c0) eqn:Ea; try discriminate.
      intros [= <- _]. now repeat split.
    + now rewrite (getChangeAfter_fails_early v w w1 e Hc).
  - intros s w'.
    destruct (currentRevNum_cases w) as [(cur & w1 & Hc & _) | (e & w1 & Hc & _)].
    + rewrite (getSnapshot_unfold v w w1 cur Hc).
      destruct (match v with VUndefined | VNull => _ | _ => _ end) as [n|]; [|discriminate].
      destruct (_impl_getSnapshot n (store w1)) as [[r|] s2]; [|discriminate].
      destruct r; try discriminate.
      intros [= H _].
      change (Snapshot_check control_snapshotClass (VSnapshot s0) = Returned s) in H.
      now apply Snapshot_check_inv in H.
    + now rewrite (getSnapshot_fails_early v w w1 e Hc).
  - intros cur n w1 r s2 Hc Hn Hr Hnull Hbad.
    rewrite (getChangeAfter_unfold v w w1 cur Hc), Hn, Hr.
    destruct r; try (eexists; reflexivity); [congruence|].
    simpl. destruct (String.eqb_spec (changeClass c) control_changeClass) as [Ecls|Ecls];
      [|eexists; reflexivity].
    destruct (Hbad c eq_refl) as [H | [H | H]]; [contradiction | |].
    + destruct (timestamp c); [|congruence].
      destruct (authorId c); eexists; reflexivity.
    + destruct (timestamp c); [destruct (authorId c); eexists; reflexivity|].
      destruct (authorId c); [|congruence]. eexists; reflexivity.
Qed.

(** The change after revision 9 of a part at revision 10, as the mock
    controller serves it. *)
Lemma read_results_are_checked_witness :
  changeClass (Mock.MockChange 10 [Mock.MockOp "x"] None None) = "MockChange"
  /\ timestamp (Mock.MockChange 10 [Mock.MockOp "x"] None None) = None
  /\ authorId (Mock.MockChange 10 [Mock.MockOp "x"] None None) = None.
Proof.
  destruct (read_results_are_checked Mock.Store Mock.controlImpl (VInt 9)
              (mkWorld (Mock.mkStore 10 2 []) [])) as (H & _).
  apply (H (Mock.MockChange 10 [Mock.MockOp "x"] None None)
           (mkWorld (Mock.mkStore 10 2 []) [call_currentRevNum; call_getChangeAfter 9 10])).
  reflexivity.
Defined.

(** ** BaseControl.update: attempts and pauses, whatever the subclass does *)

Lemma attempts_in_app (t1 t2 : list Event) :
  attempts_in (t1 ++ t2) = attempts_in t1 ++ attempts_in t2.
Proof.
  induction t1 as [|ev t1 IH]; simpl; [reflexivity|].
  destruct ev; simpl; now rewrite IH.
Qed.

Section UpdateTraces.
Context {S : Type} {I : ControlImpl S}.
Variables (baseSnapshot : Snapshot) (change : Change) (expectedSnapshot : Snapshot).

Local Abbreviation loop fuel d t n :=
  (BaseControl.update_loop fuel d t n baseSnapshot change expectedSnapshot).
Local Abbreviation attempt n :=
  (BaseControl.attempt n baseSnapshot change expectedSnapshot).

(** An attempt is one call of [_impl_update] and no pause. *)
Lemma attempt_trace (n : Z) (w : World S) :
  attempts_in (trace (snd (attempt n w)))
  = attempts_in (trace w) ++ [(baseSnapshot, change, expectedSnapshot)]
  /\ BaseControl.delays (trace (snd (attempt n w))) = BaseControl.delays (trace w).
Proof.
  split.
  - unfold BaseControl.attempt. simpl bind.
    destruct (n + 1 =? 1); simpl; unfold call; simpl;
      destruct (_impl_update _ _ _ _) as [o' s']; simpl;
      rewrite !attempts_in_app; simpl; now rewrite ?app_nil_r.
  - destruct (attempt n w) as [o w1] eqn:E. simpl.
    exact (attempt_delays _ _ _ _ _ _ _ E).
Qed.

(** A pause is one [Delay.resolve] and no attempt. *)
Lemma sleep_trace (d : Z) (w : World S) :
  attempts_in (trace (snd (BaseControl.sleep d w))) = attempts_in (trace w)
  /\ BaseControl.delays (trace (snd (BaseControl.sleep d w)))
     = BaseControl.delays (trace w) ++ [d].
Proof.
  unfold BaseControl.sleep, emit. simpl.
  rewrite !attempts_in_app, !delays_app. simpl.
  rewrite !app_nil_r. split; reflexivity.
Qed.

(** What the loop adds to the trace, from any loop variables and with any
    fuel: [k] pauses within the budget, and [k] or [k + 1] attempts, each
    with the same three arguments. *)
Lemma update_loop_trace (fuel : nat) :
  forall (d t n : Z) (w : World S),
  exists k a : nat,
    (k <= fuel)%nat
    /\ BaseControl.within_budget k d t = true
    /\ (a = k \/ a = Datatypes.S k)
    /\ (fst (loop fuel d t n w) <> Returned None -> a = Datatypes.S k)
    /\ BaseControl.delays (trace (snd (loop fuel d t n w)))
       = BaseControl.delays (trace w) ++ BaseControl.delays_from k d
    /\ attempts_in (trace (snd (loop fuel d t n w)))
       = attempts_in (trace w) ++ repeat (baseSnapshot, change, expectedSnapshot) a.
Proof.
  induction fuel as [|fuel IH]; intros d t n w.
  - exists 0%nat, 0%nat. simpl. rewrite !app_nil_r.
    split; [lia|]. split; [reflexivity|]. split; [now left|].
    split; [intros H; now elim H|]. split; reflexivity.
  - rewrite update_loop_step.
    destruct (attempt_trace n w) as [Ha Hd].
    assert (Hstop : forall (o : Outcome (option Value)) (w1 : World S),
              o <> Returned None ->
              attempts_in (trace w1)
                = attempts_in (trace w) ++ [(baseSnapshot, change, expectedSnapshot)] ->
              BaseControl.delays (trace w1) = BaseControl.delays (trace w) ->
              exists k a : nat,
                (k <= Datatypes.S fuel)%nat
                /\ BaseControl.within_budget k d t = true
                /\ (a = k \/ a = Datatypes.S k)
                /\ (fst (o, w1) <> Returned None -> a = Datatypes.S k)
                /\ BaseControl.delays (trace (snd (o, w1)))
                   = BaseControl.delays (trace w) ++ BaseControl.delays_from k d
                /\ attempts_in (trace (snd (o, w1)))
                   = attempts_in (trace w)
                     ++ repeat (baseSnapshot, change, expectedSnapshot) a).
    { intros o w1 Ho Ha1 Hd1. exists 0%nat, 1%nat. simpl. rewrite app_nil_r.
      split; [lia|]. split; [reflexivity|]. split; [now right|].
      split; [reflexivity|]. split; assumption. }
    destruct (attempt n w) as [[v|err] w1]; simpl in Ha, Hd;
      [|apply Hstop; [discriminate | assumption | assumption]].
    destruct v; try (apply Hstop; [discriminate | assumption | assumption]).
    destruct (t >=? BaseControl.MAX_UPDATE_TIME_MSEC) eqn:Et;
      [apply Hstop; [discriminate | assumption | assumption]|].
    destruct (sleep_trace d w1) as [Hsa Hsd].
    destruct (IH (d * BaseControl.UPDATE_RETRY_GROWTH_FACTOR) (t + d) (n + 1)
                 (snd (BaseControl.sleep d w1)))
      as (k & a & Hk & Hb & Hka & Hfin & Hdel & Hatt).
    exists (Datatypes.S k), (Datatypes.S a).
    split; [lia|]. split.
    { simpl. rewrite Hb, andb_true_r. apply Z.ltb_lt.
      rewrite Z.geb_leb in Et. apply Z.leb_gt in Et. exact Et. }
    split; [destruct Hka; [left | right]; congruence|].
    split; [intros H; f_equal; now apply Hfin|].
    split.
    + rewrite Hdel, Hsd, Hd. simpl. now rewrite <- app_assoc.
    + rewrite Hatt, Hsa, Ha. simpl. now rewrite <- app_assoc.
Qed.

End UpdateTraces.

Lemma within_budget_initial_bound (k : nat) :
  BaseControl.within_budget k BaseControl.INITIAL_UPDATE_RETRY_MSEC 0 = true ->
  (k <= 5)%nat.
Proof.
  intros H.
  do 6 (destruct k as [|k]; [lia|]).
  discriminate H.
Qed.

Lemma sum_retry_delays (k : nat) :
  (k <= 5)%nat ->
  sum_msec (map BaseControl.retry_delay (seq 0 k)) <= 39050.
Proof.
  intros H.
  do 6 (destruct k as [|k]; [vm_compute; discriminate|]). lia.
Qed.

(** What [getSnapshot] adds to the trace is neither an attempt nor a
    pause. *)
Lemma getSnapshot_quiet (S : Type) (I : ControlImpl S) (v : Value) (w : World S) :
  attempts_in (trace (snd (BaseControl.getSnapshot v w))) = attempts_in (trace w)
  /\ BaseControl.delays (trace (snd (BaseControl.getSnapshot v w)))
     = BaseControl.delays (trace w).
Proof.
  destruct (getSnapshot_calls v w) as [-> | (cur & n & _ & _ & _ & ->)];
    rewrite attempts_in_app, delays_app; simpl; rewrite !app_nil_r; now split.
Qed.

(** The shape of every run of [update()]: either nothing is attempted and
    there is no pause, or the change has passed the checks, its base
    snapshot has been fetched and composed with it, and the loop has run. *)
Lemma update_cases (S : Type) (I : ControlImpl S) (fuel : nat) (v : Value) (w : World S) :
  (attempts_in (trace (snd (BaseControl.update fuel v w))) = attempts_in (trace w)
   /\ BaseControl.delays (trace (snd (BaseControl.update fuel v w)))
      = BaseControl.delays (trace w))
  \/ exists (c : Change) (b e : Snapshot) (w1 : World S),
       v = VChange c
       /\ changeClass c = control_changeClass
       /\ timestamp c <> None
       /\ 1 <= revNum c
       /\ BaseDelta.isEmpty (delta c) = false
       /\ BaseControl.getSnapshot (VInt (revNum c - 1)) w = (Returned b, w1)
       /\ snapshot_compose b c = Returned e
       /\ BaseControl.update fuel v w
          = BaseControl.update_loop fuel BaseControl.INITIAL_UPDATE_RETRY_MSEC 0 0 b c e w1.
Proof.
  unfold BaseControl.update at 1 2. unfold lift. simpl bind.
  destruct (Change_check control_changeClass v) as [c|] eqn:Ec; [|now left].
  apply Change_check_inv in Ec as [-> Ecls].
  destruct (timestamp c) eqn:Et; [|now left].
  destruct (revNum c - 1 <? 0) eqn:Er; [now left|].
  destruct (BaseDelta.isEmpty (delta c)) eqn:Ee.
  - left. destruct (BaseChange.withRevNum _ _); now split.
  - destruct (getSnapshot_quiet S I (VInt (revNum c - 1)) w) as [Ha Hd].
    destruct (BaseControl.getSnapshot (VInt (revNum c - 1)) w) as [[b|] w1] eqn:Es;
      [|now left].
    destruct (snapshot_compose b c) as [e|] eqn:Ex; [|now left].
    right. exists c, b, e, w1. apply Z.ltb_ge in Er.
    assert (Hts : timestamp c <> None) by congruence.
    assert (Hrev : 1 <= revNum c) by lia.
    do 7 (split; [first [assumption | reflexivity]|]).
    now apply (update_reaches_loop fuel c w w1 b e).
Qed.

(** X8. No attempt without a base. When [update()] calls [_impl_update] at
    all, the value given to it was a change of the controller's class with
    a timestamp, a revision number of at least 1 and a delta that is not
    empty; [getSnapshot] has returned the snapshot of the revision before
    and that snapshot has composed with the change; and every attempt, at
    most six of them, gets these same three arguments. In every other run,
    among them the runs where the base revision is unavailable or does not
    exist yet and the runs where the change does not compose, nothing is
    attempted. *)
Theorem update_attempts_need_base (S : Type) (I : ControlImpl S)
    (fuel : nat) (v : Value) (w : World S) :
  attempts_in (trace (snd (BaseControl.update fuel v w))) = attempts_in (trace w)
  \/ exists (c : Change) (b e : Snapshot) (w1 : World S) (a : nat),
       v = VChange c
       /\ changeClass c = control_changeClass
       /\ timestamp c <> None
       /\ 1 <= revNum c
       /\ BaseDelta.isEmpty (delta c) = false
       /\ BaseControl.getSnapshot (VInt (revNum c - 1)) w = (Returned b, w1)
       /\ snapshot_compose b c = Returned e
       /\ (1 <= a <= 6)%nat
       /\ attempts_in (trace (snd (BaseControl.update fuel v w)))
          = attempts_in (trace w) ++ repeat (b, c, e) a.
Proof.
  destruct (update_cases S I fuel v w)
    as [[Ha _] | (c & b & e & w1 & Hv & Hc & Ht & Hr & He & Hs & Hx & Hu)];
    [now left|].
  rewrite Hu.
  destruct (update_loop_trace b c e fuel BaseControl.INITIAL_UPDATE_RETRY_MSEC 0 0 w1)
    as (k & a & Hk & Hb & Hka & _ & _ & Hatt).
  apply within_budget_initial_bound in Hb.
  destruct (getSnapshot_quiet S I (VInt (revNum c - 1)) w) as [Hq _].
  rewrite Hs in Hq. simpl in Hq. rewrite Hq in Hatt.
  destruct a as [|a].
  - left. rewrite Hatt. simpl. now rewrite app_nil_r.
  - right. exists c, b, e, w1, (Datatypes.S a).
    repeat split; try assumption; lia.
Qed.

(** X9. The pauses of [update()], whatever the subclass does and whatever
    the fuel: [k] pauses with [k <= 5], of 50 msec times 5 to the power [i]
    before retry [i + 1], so never more than 39050 msec in all. *)
Theorem update_pauses_bounded (S : Type) (I : ControlImpl S)
    (fuel : nat) (v : Value) (w : World S) :
  exists k : nat,
    (k <= 5)%nat
    /\ BaseControl.delays (trace (snd (BaseControl.update fuel v w)))
       = BaseControl.delays (trace w) ++ map BaseControl.retry_delay (seq 0 k)
    /\ sum_msec (map BaseControl.retry_delay (seq 0 k)) <= 39050.
Proof.
  destruct (update_cases S I fuel v w)
    as [[_ Hd] | (c & b & e & w1 & Hv & Hc & Ht & Hr & He & Hs & Hx & Hu)].
  - exists 0%nat. rewrite Hd. simpl. rewrite app_nil_r.
    repeat split; [lia | vm_compute; discriminate].
  - rewrite Hu.
    destruct (update_loop_trace b c e fuel BaseControl.INITIAL_UPDATE_RETRY_MSEC 0 0 w1)
      as (k & a & Hk & Hb & _ & _ & Hdel & _).
    apply within_budget_initial_bound in Hb.
    destruct (getSnapshot_quiet S I (VInt (revNum c - 1)) w) as [_ Hq].
    rewrite Hs in Hq. simpl in Hq. rewrite Hq in Hdel.
    exists k. split; [exact Hb|]. split.
    + rewrite Hdel. f_equal. apply delays_from_initial.
    + now apply sum_retry_delays.
Qed.

(** ** BaseDelta.compose: what a returned result has passed *)

Lemma Delta_check_inv (cls : ClassId) (v : Value) (d : Delta) :
  Delta_check cls v = Returned d -> v = VDelta d /\ deltaClass d = cls.
Proof.
  destruct v; try discriminate. simpl.
  destruct (String.eqb_spec (deltaClass d0) cls); try discriminate.
  intros [= ->]. now split.
Qed.

Lemma TBoolean_check_inv (v : Value) (b : bool) :
  TBoolean_check v = Returned b -> v = VBool b.
Proof.
  destruct v; try discriminate. now intros [= ->].
Qed.

(** X10. When [a.compose(b, wantDocument)] returns [r], then [b] is an
    instance of the class of [a], [wantDocument] is a boolean, [r] is what
    the subclass's [_impl_compose] returned and is an instance of the class
    of [a] too; and if a document was wanted, both [a] and [r] are
    documents. *)
Theorem BaseDelta_compose_result (I : DeltaImpl) (a r : Delta) (b wantDocument : Value) :
  BaseDelta.compose a b wantDocument = Returned r ->
  exists (d : Delta) (want : bool),
    b = VDelta d /\ deltaClass d = deltaClass a
    /\ wantDocument = VBool want
    /\ _impl_compose a d want = Returned (VDelta r)
    /\ deltaClass r = deltaClass a
    /\ (want = true ->
        BaseDelta.isDocument a = Returned true
        /\ BaseDelta.isDocument r = Returned true).
Proof.
  unfold BaseDelta.compose. simpl bind.
  destruct (Delta_check (deltaClass a) b) as [d|] eqn:Eb; [|discriminate].
  apply Delta_check_inv in Eb as [-> Hd].
  destruct (TBoolean_check wantDocument) as [want|] eqn:Ew; [|discriminate].
  apply TBoolean_check_inv in Ew as ->.
  destruct want.
  - destruct (BaseDelta.isDocument a) as [[|]|] eqn:Ea; simpl; try discriminate.
    destruct (_impl_compose a d true) as [v|] eqn:Ei; [|discriminate].
    destruct (Delta_check (deltaClass a) v) as [r'|] eqn:Er; [|discriminate].
    apply Delta_check_inv in Er as [-> Hr].
    destruct (BaseDelta.isDocument r') as [[|]|] eqn:Erd; simpl; try discriminate.
    intros [= <-]. exists d, true. repeat split; assumption.
  - simpl.
    destruct (_impl_compose a d false) as [v|] eqn:Ei; [|discriminate].
    destruct (Delta_check (deltaClass a) v) as [r'|] eqn:Er; [|discriminate].
    apply Delta_check_inv in Er as [-> Hr].
    intros [= <-]. exists d, false. repeat split; try assumption; discriminate.
Qed.

(** The composition of two mock deltas into a document. *)
Lemma BaseDelta_compose_result_witness :
  exists (d : Delta) (want : bool),
    VDelta (Mock.MockDelta [Mock.MockOp "y"]) = VDelta d
    /\ deltaClass d = deltaClass (Mock.MockDelta [Mock.MockOp "x"])
    /\ VBool true = VBool want
    /\ _impl_compose (DeltaImpl := Mock.deltaImpl) (Mock.MockDelta [Mock.MockOp "x"]) d want
       = Returned (VDelta (Mock.MockDelta [Mock.MockOp "composedDoc"; Mock.MockOp "y"])).
Proof.
  destruct (BaseDelta_compose_result Mock.deltaImpl
              (Mock.MockDelta [Mock.MockOp "x"])
              (Mock.MockDelta [Mock.MockOp "composedDoc"; Mock.MockOp "y"])
              (VDelta (Mock.MockDelta [Mock.MockOp "y"])) (VBool true) eq_refl)
    as (d & want & H1 & H2 & H3 & H4 & _).
  exists d, want. repeat split; assumption.
Defined.

(** X11. Composition without a wanted document never asks whether anything
    is a document: two delta classes that compose alike give the same
    outcome of [a.compose(b, false)] whatever their [_impl_isDocument] do,
    and the outcome is the subclass's own result when that is an instance
    of the class of [a], even if neither [a] nor the result is a
    document. *)
Theorem BaseDelta_compose_plain (I1 I2 : DeltaImpl) (a : Delta) (b : Value) :
  (forall x y want,
     _impl_compose (DeltaImpl := I1) x y want = _impl_compose (DeltaImpl := I2) x y want) ->
  BaseDelta.compose (I := I1) a b (VBool false)
  = BaseDelta.compose (I := I2) a b (VBool false)
  /\ (forall d r : Delta,
        b = VDelta d -> deltaClass d = deltaClass a ->
        _impl_compose (DeltaImpl := I1) a d false = Returned (VDelta r) ->
        deltaClass r = deltaClass a ->
        BaseDelta.compose (I := I1) a b (VBool false) = Returned r).
Proof.
  intros Hsame. split.
  - unfold BaseDelta.compose. simpl bind.
    destruct (Delta_check (deltaClass a) b) as [d|]; [|reflexivity].
    simpl. rewrite Hsame. reflexivity.
  - intros d r -> Hd Hi Hr. unfold BaseDelta.compose.
    rewrite (Delta_check_same_class _ _ Hd). simpl. rewrite Hi.
    now rewrite (Delta_check_same_class _ _ Hr).
Qed.

(** A delta that is not a document composes when no document is wanted. *)
Lemma BaseDelta_compose_plain_witness :
  BaseDelta.compose (I := Mock.deltaImpl)
    (Mock.MockDelta [Mock.MockOp "notDocument"])
    (VDelta (Mock.MockDelta [Mock.MockOp "y"])) (VBool false)
  = Returned (Mock.MockDelta [Mock.MockOp "composedNotDoc"; Mock.MockOp "y"]).
Proof.
  destruct (BaseDelta_compose_plain Mock.deltaImpl Mock.deltaImpl
              (Mock.MockDelta [Mock.MockOp "notDocument"])
              (VDelta (Mock.MockDelta [Mock.MockOp "y"]))
              (fun _ _ _ => eq_refl)) as [_ H].
  apply (H (Mock.MockDelta [Mock.MockOp "y"])); reflexivity.
Defined.

(** ** DocumentSnapshot: what every instance satisfies *)

#[local] Arguments RevisionNumber_check : simpl never.
#[local] Arguments Change_check : simpl never.

Lemma DocumentSnapshot_new_inv (I : FrozenDeltaImpl) (r c : Value) (s : Snapshot) :
  DocumentSnapshot.new r c = Returned s ->
  snapshotClass s = DocumentSnapshot.API_NAME
  /\ r = VInt (snapRevNum s)
  /\ 0 <= snapRevNum s <= MAX_SAFE_INTEGER
  /\ FrozenDelta_coerce c = Returned (contents s)
  /\ FrozenDelta_isDocument (contents s) = true.
Proof.
  unfold DocumentSnapshot.new. simpl bind.
  destruct (RevisionNumber_check r) as [n|] eqn:En; [|discriminate].
  apply RevisionNumber_check_inv in En as [-> Hn].
  destruct (FrozenDelta_coerce c) as [d|] eqn:Ed; [|discriminate].
  destruct (FrozenDelta_isDocument d) eqn:Edoc; simpl; [|discriminate].
  intros [= <-]. simpl. repeat split; try assumption; lia.
Qed.

(** X12. Every [DocumentSnapshot] that the constructor makes, and so every
    result of [compose], carries a revision number that is a non-negative
    safe integer and contents that the delta library calls a document;
    composing with a change whose result is not a document throws. *)
Theorem DocumentSnapshot_is_document (I : FrozenDeltaImpl) :
  (forall (r c : Value) (s : Snapshot),
     DocumentSnapshot.new r c = Returned s ->
     snapshotClass s = DocumentSnapshot.API_NAME
     /\ r = VInt (snapRevNum s)
     /\ 0 <= snapRevNum s <= MAX_SAFE_INTEGER
     /\ FrozenDelta_coerce c = Returned (contents s)
     /\ FrozenDelta_isDocument (contents s) = true)
  /\ (forall (this s : Snapshot) (change : Value),
     DocumentSnapshot.compose this change = Returned s ->
     snapshotClass s = DocumentSnapshot.API_NAME
     /\ 0 <= snapRevNum s <= MAX_SAFE_INTEGER
     /\ FrozenDelta_isDocument (contents s) = true)
  /\ (forall (this : Snapshot) (c : Change) (composed : Value) (d1 d2 : Delta),
     changeClass c = DocumentDelta.API_NAME ->
     0 <= revNum c <= MAX_SAFE_INTEGER ->
     FrozenDelta_compose (contents this) (delta c) = Returned composed ->
     FrozenDelta_coerce composed = Returned d1 ->
     FrozenDelta_coerce (VDelta d1) = Returned d2 ->
     FrozenDelta_isDocument d2 = false ->
     exists msg, DocumentSnapshot.compose this (VChange c) = Threw (plain_error msg)).
Proof.
  assert (Hnew := DocumentSnapshot_new_inv I).
  split; [exact Hnew|]. split.
  - intros this s change. unfold DocumentSnapshot.compose. simpl bind.
    destruct (Change_check DocumentDelta.API_NAME change) as [c|]; [|discriminate].
    destruct (FrozenDelta_compose (contents this) (delta c)) as [v|]; [|discriminate].
    destruct (FrozenDelta_coerce v) as [d|]; [|discriminate].
    intros H. apply Hnew in H as (H1 & _ & H3 & _ & H5). now repeat split.
  - intros this c composed d1 d2 Hc Hr Hx Hd1 Hd2 Hdoc.
    unfold DocumentSnapshot.compose, DocumentSnapshot.new. simpl bind.
    rewrite (Change_check_ok _ _ Hc), Hx, Hd1.
    rewrite (RevisionNumber_check_ok _ Hr), Hd2, Hdoc. simpl.
    eexists. reflexivity.
Qed.

(** The snapshot of one insert at revision 7. *)
Lemma DocumentSnapshot_is_document_witness :
  snapshotClass (mkSnapshot "DocumentSnapshot" 7 (mkDelta "FrozenDelta" [mkOp "insert" ["x"]]))
    = DocumentSnapshot.API_NAME
  /\ FrozenDelta_isDocument (FrozenDeltaImpl := Mock.frozenDeltaImpl)
       (mkDelta "FrozenDelta" [mkOp "insert" ["x"]]) = true.
Proof.
  destruct (DocumentSnapshot_is_document Mock.frozenDeltaImpl) as (H & _).
  destruct (H (VInt 7) (VDelta (mkDelta "Delta" [mkOp "insert" ["x"]]))
              (mkSnapshot "DocumentSnapshot" 7 (mkDelta "FrozenDelta" [mkOp "insert" ["x"]]))
              eq_refl) as (H1 & _ & _ & _ & H5).
  split; assumption.
Defined.

(** X13. Round trip through the API form. When the library's coercion
    gives back a frozen delta that it is handed, a [DocumentSnapshot] that
    the constructor has made is rebuilt from its [toApi()] arguments by
    [fromApi] as the same snapshot. *)
Theorem DocumentSnapshot_api_round_trip (I : FrozenDeltaImpl)
    (Hcoerce : forall (v : Value) (d : Delta),
                 FrozenDelta_coerce v = Returned d ->
                 FrozenDelta_coerce (VDelta d) = Returned d)
    (r c : Value) (s : Snapshot) :
  DocumentSnapshot.new r c = Returned s ->
  DocumentSnapshotApi.fromApi_spread (DocumentSnapshotApi.toApi s) = Returned s.
Proof.
  intros Hs.
  destruct (DocumentSnapshot_new_inv I r c s Hs) as (Hcls & _ & Hrev & Hco & Hdoc).
  unfold DocumentSnapshotApi.fromApi_spread, DocumentSnapshotApi.toApi,
    DocumentSnapshotApi.fromApi, DocumentSnapshot.new. simpl.
  rewrite (RevisionNumber_check_ok _ Hrev). rewrite (Hcoerce _ _ Hco), Hdoc. simpl.
  destruct s as [cls n d]. simpl in *. now rewrite Hcls.
Qed.

Lemma Mock_coerce_idempotent (v : Value) (d : Delta) :
  FrozenDelta_coerce (FrozenDeltaImpl := Mock.frozenDeltaImpl) v = Returned d ->
  FrozenDelta_coerce (FrozenDeltaImpl := Mock.frozenDeltaImpl) (VDelta d) = Returned d.
Proof.
  destruct v; try discriminate. simpl. now intros [= <-].
Qed.

(** The snapshot of one insert at revision 7, there and back. *)
Lemma DocumentSnapshot_api_round_trip_witness :
  DocumentSnapshotApi.fromApi_spread (I := Mock.frozenDeltaImpl)
    [VInt 7; VDelta (mkDelta "FrozenDelta" [mkOp "insert" ["x"]])]
  = Returned (mkSnapshot "DocumentSnapshot" 7 (mkDelta "FrozenDelta" [mkOp "insert" ["x"]])).
Proof.
  apply (DocumentSnapshot_api_round_trip Mock.frozenDeltaImpl Mock_coerce_idempotent
           (VInt 7) (VDelta (mkDelta "Delta" [mkOp "insert" ["x"]]))
           (mkSnapshot "DocumentSnapshot" 7 (mkDelta "FrozenDelta" [mkOp "insert" ["x"]]))).
  reflexivity.
Defined.

(** ** BaseFile.clampTimeoutMsec and BaseFile.whenChange *)

Lemma TInt_nonNegative_inv (v : Value) (n : Z) :
  TInt_nonNegative v = Returned n -> v = VInt n /\ 0 <= n <= MAX_SAFE_INTEGER.
Proof.
  unfold TInt_nonNegative, TInt_min. simpl bind.
  destruct (TInt_check v) as [m|] eqn:E; [|discriminate].
  apply TInt_check_iff in E as [-> Hs]. apply Number_isSafeInteger_iff in Hs.
  destruct (m <? 0) eqn:E0; [discriminate|]. apply Z.ltb_ge in E0.
  intros [= <-]. split; [reflexivity | lia].
Qed.

Lemma TInt_nonNegative_ok (n : Z) :
  0 <= n <= MAX_SAFE_INTEGER -> TInt_nonNegative (VInt n) = Returned n.
Proof.
  intros H. unfold TInt_nonNegative, TInt_min, TInt_check.
  replace (Number_isSafeInteger n) with true
    by (symmetry; apply Number_isSafeInteger_iff; lia).
  simpl. now replace (n <? 0) with false by (symmetry; apply Z.ltb_ge; lia).
Qed.

Section Clamp.
Context {S : Type} {I : BaseFileWait.WaitImpl S}.

(** The two ways in which [clampTimeoutMsec] returns. *)
Lemma clampTimeoutMsec_cases (value : Value) (r : Z) :
  BaseFileWait.clampTimeoutMsec value = Returned r ->
  (value = VStr "never"
   /\ r = match BaseFileWait.maxTimeoutMsec with
          | None => BaseFileWait.ONE_DAY_MSEC
          | Some hi => hi
          end)
  \/ (exists n : Z,
        value = VInt n /\ 0 <= n <= MAX_SAFE_INTEGER
        /\ r = match BaseFileWait.maxTimeoutMsec with
               | Some hi => Z.min (match BaseFileWait.minTimeoutMsec with
                                   | Some lo => Z.max n lo
                                   | None => n
                                   end) hi
               | None => match BaseFileWait.minTimeoutMsec with
                         | Some lo => Z.max n lo
                         | None => n
                         end
               end).
Proof.
  unfold BaseFileWait.clampTimeoutMsec.
  destruct (match value with VStr s => String.eqb s "never" | _ => false end) eqn:Enever.
  - destruct value; try discriminate. apply String.eqb_eq in Enever as ->.
    left. split; [reflexivity|].
    destruct BaseFileWait.maxTimeoutMsec; now injection H as <-.
  - assert (Hgen : (n <- TInt_nonNegative value ;;
                    Returned (match BaseFileWait.maxTimeoutMsec with
                              | Some hi => Z.min (match BaseFileWait.minTimeoutMsec with
                                                  | Some lo => Z.max n lo
                                                  | None => n
                                                  end) hi
                              | None => match BaseFileWait.minTimeoutMsec with
                                        | Some lo => Z.max n lo
                                        | None => n
                                        end
                              end)) = Returned r ->
                   exists n : Z,
                     value = VInt n /\ 0 <= n <= MAX_SAFE_INTEGER
                     /\ r = match BaseFileWait.maxTimeoutMsec with
                            | Some hi => Z.min (match BaseFileWait.minTimeoutMsec with
                                                | Some lo => Z.max n lo
                                                | None => n
                                                end) hi
                            | None => match BaseFileWait.minTimeoutMsec with
                                      | Some lo => Z.max n lo
                                      | None => n
                                      end
                            end).
    { simpl bind. destruct (TInt_nonNegative value) as [n|] eqn:En; [|discriminate].
      apply TInt_nonNegative_inv in En as [-> Hn].
      intros [= <-]. now exists n. }
    intros H. right. apply Hgen.
    destruct value; try exact H.
    destruct s as [|a s]; [exact H|].
    revert Enever H.
    repeat (match goal with
            | |- context [match ?x with EmptyString => _ | String _ _ => _ end] =>
                destruct x
            | |- context [match ?x with Ascii _ _ _ _ _ _ _ _ => _ end] => destruct x
            | |- context [if ?b then _ else _] => destruct b
            end; try (intros _ H; exact H)).
    all: try discriminate.
Qed.

End Clamp.

(** X14. [clampTimeoutMsec] turns down everything but the string [never]
    and the non-negative [Int]s. What it returns is never above the
    maximum of the file class, if there is one; it is not below the
    minimum, if there is one that is not above the maximum, except that
    [never] stands for the maximum itself and, without a maximum, for one
    day, whatever the minimum; and a number between the two bounds comes
    back as it is. *)
Theorem clampTimeoutMsec_bounds (S : Type) (I : BaseFileWait.WaitImpl S)
    (value : Value) (r : Z) :
  BaseFileWait.clampTimeoutMsec value = Returned r ->
  (value = VStr "never" \/ exists n, value = VInt n /\ 0 <= n <= MAX_SAFE_INTEGER)
  /\ (forall hi, BaseFileWait.maxTimeoutMsec = Some hi -> r <= hi)
  /\ (forall lo, BaseFileWait.minTimeoutMsec = Some lo ->
        (forall hi, BaseFileWait.maxTimeoutMsec = Some hi -> lo <= hi) ->
        value <> VStr "never" \/ BaseFileWait.maxTimeoutMsec <> None ->
        lo <= r)
  /\ (value = VStr "never" -> BaseFileWait.maxTimeoutMsec = None ->
        r = BaseFileWait.ONE_DAY_MSEC)
  /\ (forall n, value = VInt n ->
        (forall lo, BaseFileWait.minTimeoutMsec = Some lo -> lo <= n) ->
        (forall hi, BaseFileWait.maxTimeoutMsec = Some hi -> n <= hi) ->
        r = n).
Proof.
  intros H. apply clampTimeoutMsec_cases in H.
  destruct H as [[-> ->] | (n & -> & Hn & ->)].
  - split; [now left|]. split; [|split; [|split]].
    + intros hi ->. lia.
    + intros lo Hlo Hle [Hv | Hm]; [congruence|].
      destruct BaseFileWait.maxTimeoutMsec as [hi|]; [|congruence].
      now apply Hle.
    + now intros _ ->.
    + discriminate.
  - split; [right; now exists n|]. split; [|split; [|split]].
    + intros hi ->. lia.
    + intros lo Hlo Hle _. rewrite Hlo.
      destruct BaseFileWait.maxTimeoutMsec as [hi|]; [specialize (Hle hi eq_refl)|]; lia.
    + discriminate.
    + intros m [= <-] Hlo Hhi.
      destruct BaseFileWait.minTimeoutMsec as [lo|], BaseFileWait.maxTimeoutMsec as [hi|];
        try specialize (Hlo _ eq_refl); try specialize (Hhi _ eq_refl); lia.
Qed.

(** Ten milliseconds become the minimum of the mock file class, which is
    not above its maximum. *)
Lemma clampTimeoutMsec_bounds_witness :
  BaseFileWait.clampTimeoutMsec (I := MockWait.waitImpl) (VInt 10) = Returned 100
  /\ 100 <= 300000.
Proof.
  split; [reflexivity|].
  destruct (clampTimeoutMsec_bounds Z MockWait.waitImpl (VInt 10) 100 eq_refl)
    as (_ & H & _).
  exact (H 300000 eq_refl).
Defined.

(** X15. The guarantee that [_impl_whenChange] is given. Either
    [whenChange] throws with the file object as it was, the subclass not
    having been called, or the subclass is called, once, with the clamped
    timeout, the storage path that passed its check, and a hash that is
    [null], the hash of the buffer given, or the non-empty string given;
    what [whenChange] then does is what that call does. *)
Theorem whenChange_calls_with_valid_arguments (S : Type) (I : BaseFileWait.WaitImpl S)
    (timeoutMsec storagePath : Value) (valueOrHash : BaseFileWait.ValueOrHash)
    (f : BaseFile.File S) :
  (exists e, BaseFileWait.whenChange timeoutMsec storagePath valueOrHash f = (Threw e, f))
  \/ exists (t : Z) (path : string) (hash : option string),
       BaseFileWait.clampTimeoutMsec timeoutMsec = Returned t
       /\ BaseFileWait.StoragePath_check storagePath = Returned path
       /\ match valueOrHash with
          | BaseFileWait.a_buffer h => hash = Some h
          | BaseFileWait.a_value v =>
              (v = VNull /\ hash = None)
              \/ exists s, v = VStr s /\ s <> ""%string /\ hash = Some s
          end
       /\ BaseFileWait.whenChange timeoutMsec storagePath valueOrHash f
          = BaseFile.call (BaseFileWait._impl_whenChange t path hash) f.
Proof.
  unfold BaseFileWait.whenChange, BaseFile.lift. simpl bind.
  destruct (BaseFileWait.clampTimeoutMsec timeoutMsec) as [t|e]; [|left; now exists e].
  destruct (BaseFileWait.StoragePath_check storagePath) as [path|e];
    [|left; now exists e].
  destruct valueOrHash as [h|v].
  - right. exists t, path, (Some h). now repeat split.
  - destruct v; simpl;
      try (left; eexists; reflexivity).
    + right. exists t, path, None. repeat split. now left.
    + destruct (String.eqb_spec s ""); [left; eexists; reflexivity|].
      right. exists t, path, (Some s). repeat split.
      right. exists s. now repeat split.
Qed.

(** ** BaseFile.transact: what passes, and what a failure leaves behind *)

Lemma TInt_min_iff (v : Value) (m n : Z) :
  TInt_min v m = Returned n
  <-> v = VInt n /\ - MAX_SAFE_INTEGER <= n <= MAX_SAFE_INTEGER /\ m <= n.
Proof.
  unfold TInt_min. simpl bind. split.
  - destruct (TInt_check v) as [k|] eqn:Ek; [|discriminate].
    apply TInt_check_iff in Ek as [-> Hs]. apply Number_isSafeInteger_iff in Hs.
    destruct (k <? m) eqn:E; [discriminate|]. apply Z.ltb_ge in E.
    intros [= <-]. now repeat split.
  - intros (-> & Hs & Hm). simpl.
    replace (Number_isSafeInteger n) with true
      by (symmetry; now apply Number_isSafeInteger_iff).
    now replace (n <? m) with false by (symmetry; apply Z.ltb_ge; lia).
Qed.

Lemma TInt_min_throws (v : Value) (m : Z) (e : Error) :
  TInt_min v m = Threw e -> exists expectation, e = bad_value expectation.
Proof.
  unfold TInt_min, TInt_check. simpl bind.
  destruct v; try (intros [= <-]; eexists; reflexivity).
  destruct (Number_isSafeInteger n); [destruct (n <? m)|];
    try discriminate; intros [= <-]; eexists; reflexivity.
Qed.

(** [transact] is the call of the subclass followed by the checks, on a
    file object whose record of the revision number stays as it is. *)
Lemma transact_unfold (S : Type) (I : BaseFile.FileImpl S)
    (spec : BaseFile.TransactionSpec) (f : BaseFile.File S) :
  BaseFile.transact spec f
  = (match fst (BaseFile._impl_transact spec (BaseFile.file_store f)) with
     | Returned result => transact_validate result
     | Threw e => Threw e
     end,
     BaseFile.mkFile (snd (BaseFile._impl_transact spec (BaseFile.file_store f)))
                     (BaseFile._lastRevNum f)).
Proof.
  unfold BaseFile.transact, BaseFile.call, BaseFile.lift, transact_validate. simpl bind.
  destruct (BaseFile._impl_transact spec (BaseFile.file_store f)) as [[ir|e0] s'];
    [|reflexivity].
  destruct ir as [rv nv dv|]; [|reflexivity]. simpl.
  destruct (TInt_nonNegative rv) as [n|]; [|reflexivity].
  destruct nv; simpl; try (destruct dv; reflexivity);
    destruct (TInt_min _ (n + 1)); try reflexivity; destruct dv; reflexivity.
Qed.

Lemma transact_validate_accepts (ir : BaseFile.ImplResult) (r : BaseFile.TransactionResult) :
  transact_validate ir = Returned r
  <-> exists (nv : Value) (dv : BaseFile.DataField),
        ir = BaseFile.exact_keys (VInt (BaseFile.result_revNum r)) nv dv
        /\ 0 <= BaseFile.result_revNum r <= MAX_SAFE_INTEGER
        /\ match BaseFile.result_newRevNum r with
           | None => nv = VNull
           | Some m => nv = VInt m
                       /\ BaseFile.result_revNum r + 1 <= m <= MAX_SAFE_INTEGER
           end
        /\ match BaseFile.result_data r with
           | None => dv = BaseFile.data_null
           | Some m => dv = BaseFile.data_map m
           end.
Proof.
  split.
  - destruct ir as [rv nv dv|]; [|discriminate]. simpl.
    destruct (TInt_nonNegative rv) as [n|] eqn:Er; [|discriminate].
    apply TInt_nonNegative_inv in Er as [-> Hn].
    destruct (match nv with VNull => Returned None | _ => _ end) as [om|] eqn:Env;
      [|discriminate].
    destruct (match dv with BaseFile.data_null => _ | _ => _ end) as [od|] eqn:Edv;
      [|discriminate].
    intros [= <-]. simpl. exists nv, dv. split; [reflexivity|]. split; [exact Hn|]. split.
    + destruct nv;
        try (injection Env as <-; reflexivity);
        (destruct (TInt_min _ (n + 1)) as [m|] eqn:Em; [|discriminate]);
        injection Env as <-; apply TInt_min_iff in Em as (Hv & Hs & Hm);
        try discriminate Hv.
      injection Hv as <-. split; [reflexivity | lia].
    + destruct dv; try discriminate; now injection Edv as <-.
  - intros (nv & dv & -> & Hn & Hnv & Hdv). destruct r as [n om od]. simpl in *.
    rewrite (TInt_nonNegative_ok _ Hn).
    destruct om as [m|].
    + destruct Hnv as [-> Hm].
      rewrite (proj2 (TInt_min_iff (VInt m) (n + 1) m)) by (repeat split; lia).
      destruct od; subst dv; reflexivity.
    + subst nv. destruct od; subst dv; reflexivity.
Qed.

Lemma transact_validate_throws (ir : BaseFile.ImplResult) (e : Error) :
  transact_validate ir = Threw e -> exists expectation, e = bad_value expectation.
Proof.
  destruct ir as [rv nv dv|]; [|intros [= <-]; eexists; reflexivity]. simpl.
  destruct (TInt_nonNegative rv) as [n|e1] eqn:Er.
  - destruct (match nv with VNull => Returned None | _ => _ end) as [om|e2] eqn:Env.
    + destruct dv; try discriminate. intros [= <-]. eexists; reflexivity.
    + intros [= <-].
      destruct nv; try discriminate Env;
        (destruct (TInt_min _ (n + 1)) eqn:Em; [discriminate Env|]);
        injection Env as <-; now apply TInt_min_throws in Em.
  - intros [= <-]. now apply TInt_min_throws in Er.
Qed.

(** X16. [transact] returns a result exactly when the subclass returned an
    object with the three keys whose [revNum] is a non-negative [Int],
    whose [newRevNum] is [null] or an [Int] of at least [revNum + 1], and
    whose [data] is [null] or a map; every other answer of the subclass is
    turned into a bad-value error. Either way the store is left as the
    subclass left it, so a transaction whose result is turned down has
    still taken place, and the recorded revision number is not touched. *)
Theorem transact_accepts (S : Type) (I : BaseFile.FileImpl S)
    (spec : BaseFile.TransactionSpec) (f : BaseFile.File S) :
  BaseFile.file_store (snd (BaseFile.transact spec f))
    = snd (BaseFile._impl_transact spec (BaseFile.file_store f))
  /\ BaseFile._lastRevNum (snd (BaseFile.transact spec f)) = BaseFile._lastRevNum f
  /\ (forall r : BaseFile.TransactionResult,
        fst (BaseFile.transact spec f) = Returned r
        <-> exists (nv : Value) (dv : BaseFile.DataField),
              fst (BaseFile._impl_transact spec (BaseFile.file_store f))
                = Returned (BaseFile.exact_keys (VInt (BaseFile.result_revNum r)) nv dv)
              /\ 0 <= BaseFile.result_revNum r <= MAX_SAFE_INTEGER
              /\ match BaseFile.result_newRevNum r with
                 | None => nv = VNull
                 | Some m => nv = VInt m
                             /\ BaseFile.result_revNum r + 1 <= m <= MAX_SAFE_INTEGER
                 end
              /\ match BaseFile.result_data r with
                 | None => dv = BaseFile.data_null
                 | Some m => dv = BaseFile.data_map m
                 end)
  /\ (forall (ir : BaseFile.ImplResult) (e : Error),
        fst (BaseFile._impl_transact spec (BaseFile.file_store f)) = Returned ir ->
        fst (BaseFile.transact spec f) = Threw e ->
        exists expectation, e = bad_value expectation).
Proof.
  rewrite transact_unfold. simpl.
  split; [reflexivity|]. split; [reflexivity|]. split.
  - intros r.
    destruct (fst (BaseFile._impl_transact spec (BaseFile.file_store f))) as [ir|e0].
    + rewrite transact_validate_accepts. split.
      * intros (nv & dv & -> & H). now exists nv, dv.
      * intros (nv & dv & [= ->] & H). now exists nv, dv.
    + split; [discriminate | intros (nv & dv & H & _); discriminate].
  - intros ir e ->. apply transact_validate_throws.
Qed.

(** A write on the mock file at revision 4: the result reports 4 and 5. *)
Lemma transact_accepts_witness :
  exists (nv : Value) (dv : BaseFile.DataField),
    fst (BaseFile._impl_transact (FileImpl := Mock.fileImpl) 1%nat 4)
    = Returned (BaseFile.exact_keys (VInt 4) nv dv)
    /\ nv = VInt 5.
Proof.
  destruct (transact_accepts Z Mock.fileImpl 1%nat (BaseFile.new 4)) as (_ & _ & H & _).
  destruct (proj1 (H (BaseFile.mkResult 4 (Some 5) None)) eq_refl)
    as (nv & dv & H1 & _ & [H2 _] & _).
  exists nv, dv. split; assumption.
Defined.

(** ** AuthorSession: the identities of a constructed session *)

Lemma TString_nonempty_inv (v : Value) (s : string) :
  TString_nonempty v = Returned s <-> v = VStr s /\ s <> "".
Proof.
  unfold TString_nonempty. split.
  - destruct v; try discriminate.
    destruct (String.eqb_spec s0 ""); [discriminate|].
    intros [= <-]. split; [reflexivity | assumption].
  - intros [-> Hs]. destruct (String.eqb_spec s ""); [contradiction | reflexivity].
Qed.

Lemma TString_nonempty_throws (v : Value) (e : Error) :
  TString_nonempty v = Threw e -> e = bad_value "String, nonempty".
Proof.
  unfold TString_nonempty. destruct v; try (intros [= <-]; reflexivity).
  destruct (String.eqb s ""); [intros [= <-]; reflexivity | discriminate].
Qed.

(** X17. The constructor of a session succeeds exactly when the session id
    and the author id are both non-empty strings, and the session then holds
    these two strings; any other pair of arguments is rejected as a bad
    value. As a consequence, no method that can be named across the API
    boundary ever calls a controller with an empty author id or an empty
    session id. *)
Theorem session_identities_nonempty (fileComplex : AuthorSession.FileComplex)
    (sessionId authorId : Value) :
  (forall this : AuthorSession.t,
     AuthorSession.new fileComplex sessionId authorId = Returned this
     <-> exists s a : string,
           sessionId = VStr s /\ authorId = VStr a /\ s <> ""%string /\ a <> ""%string
           /\ this = AuthorSession.mkSession fileComplex s a)
  /\ (forall e : Error,
        AuthorSession.new fileComplex sessionId authorId = Threw e ->
        e = bad_value "String, nonempty")
  /\ (forall (this : AuthorSession.t) (method : string) (args : list Value)
             (a : AuthorSession.Action),
        AuthorSession.new fileComplex sessionId authorId = Returned this ->
        AuthorSession.invoke this method args = Some a ->
        AuthorSession.author_of a <> Some ""%string
        /\ AuthorSession.session_of a <> Some ""%string).
Proof.
  assert (Hnew : forall this : AuthorSession.t,
     AuthorSession.new fileComplex sessionId authorId = Returned this
     <-> exists s a : string,
           sessionId = VStr s /\ authorId = VStr a /\ s <> ""%string /\ a <> ""%string
           /\ this = AuthorSession.mkSession fileComplex s a).
  { intros this. unfold AuthorSession.new. simpl. split.
    - destruct (TString_nonempty sessionId) as [s|] eqn:Es; [|discriminate].
      destruct (TString_nonempty authorId) as [a|] eqn:Ea; [|discriminate].
      intros [= <-].
      apply TString_nonempty_inv in Es. destruct Es as [-> Hs].
      apply TString_nonempty_inv in Ea. destruct Ea as [-> Ha].
      exists s, a. split; [reflexivity|]. split; [reflexivity|].
      split; [assumption|]. split; [assumption | reflexivity].
    - intros (s & a & -> & -> & Hs & Ha & ->).
      rewrite (proj2 (TString_nonempty_inv (VStr s) s) (conj eq_refl Hs)).
      rewrite (proj2 (TString_nonempty_inv (VStr a) a) (conj eq_refl Ha)).
      reflexivity. }
  split; [exact Hnew|]. split.
  - intros e. unfold AuthorSession.new. simpl.
    destruct (TString_nonempty sessionId) as [s|e1] eqn:Es.
    + destruct (TString_nonempty authorId) as [a|e2] eqn:Ea; [discriminate|].
      intros [= <-]. exact (TString_nonempty_throws _ _ Ea).
    + intros [= <-]. exact (TString_nonempty_throws _ _ Es).
  - intros this method args act Hthis Hinv.
    apply Hnew in Hthis. destruct Hthis as (s & a & _ & _ & Hs & Ha & ->).
    revert Hinv. unfold AuthorSession.invoke.
    repeat (match goal with
            | |- context [if ?b then _ else _] => destruct b
            end;
            [intros [= <-]; simpl; split; first [discriminate | congruence]|]).
    discriminate.
Qed.
